(** * DataFramerXML: streaming OSM reader and sampling exporter

    A shallow embedding of [src/dataFrame/DataFramerXML.py]: the abstract
    class [ParserXML] (extension check, event cursor, root validation,
    element generator) and its subclass [DataFramerXML] (option
    cross-check, tag-vocabulary validation, [export_dataset]).

    The XML library ([xml.etree.cElementTree]) is not part of the
    repository.  It is modelled on abstract syntax: a document is an
    [Element] tree, [iterparse] delivers the start/end events of that
    tree, [tostring] produces markup tokens and [parse_document] reads
    tokens back; [render] gives the bytes of the tokens.

    What the model takes for granted:
    - the tag filter is a tuple or list of strings, the stride map a
      dict from names to integers; file names and tags are byte strings;
    - the parser has built the tree of the source by the time it hands
      the events over, as it does for any source that fits one read of
      [iterparse]; so an element is complete, tail included, when the
      loop serializes it, and [root.clear()] empties the whole root;
    - paths are compared as the strings the program builds; which
      directories and files exist is given by the file system [FS];
    - what the program prints is left out. *)

From Stdlib Require Import ZArith String Ascii List Bool Lia.
From stdpp Require Import base option list strings gmap.

Local Open Scope Z_scope.

(** ** Python strings *)

Module Str.

(** [str.lower()], on the ASCII letters; other bytes are left alone
    (no non-ASCII character lower-cases to one of the letters o, s, m,
    the only ones the program compares against). *)
Definition lower_ascii (c : ascii) : ascii :=
  let n := nat_of_ascii c in
  if ((65 <=? n)%nat && (n <=? 90)%nat)%bool then ascii_of_nat (n + 32) else c.

Fixpoint lower (s : string) : string :=
  match s with
  | EmptyString => EmptyString
  | String c s' => String (lower_ascii c) (lower s')
  end.

(** [s.split(sep)] for a one-character separator: never empty. *)
Fixpoint split (sep : ascii) (s : string) : list string :=
  match s with
  | EmptyString => [EmptyString]
  | String c s' =>
      if Ascii.eqb c sep then EmptyString :: split sep s'
      else match split sep s' with
           | [] => [String c EmptyString]
           | w :: ws => String c w :: ws
           end
  end.

(** [s.split('.')[-1]] *)
Definition extension (s : string) : string :=
  List.last (split "."%char s) EmptyString.

Definition startswith_sep (s : string) : bool :=
  match s with
  | String c _ => Ascii.eqb c "/"%char
  | EmptyString => false
  end.

Fixpoint endswith_sep (s : string) : bool :=
  match s with
  | EmptyString => false
  | String c EmptyString => Ascii.eqb c "/"%char
  | String _ s' => endswith_sep s'
  end.

(** Two characters are the same letter up to ASCII case. *)
Definition same_letter (a b : ascii) : Prop :=
  a = b \/
  (let n := nat_of_ascii a in
   let m := nat_of_ascii b in
   ((65 <= n <= 90)%nat /\ m = (n + 32)%nat) \/ ((65 <= m <= 90)%nat /\ n = (m + 32)%nat)).

(** Case-insensitive equality of two strings, letter by letter. *)
Fixpoint eq_nocase (s t : string) : Prop :=
  match s, t with
  | EmptyString, EmptyString => True
  | String a s', String b t' => same_letter a b /\ eq_nocase s' t'
  | _, _ => False
  end.

End Str.

(** ** Paths ([posixpath]) *)

Module Path.

(** [os.path.join(a, b)] *)
Definition join (a b : string) : string :=
  if Str.startswith_sep b then b
  else if (match a with EmptyString => true | _ => false end) || Str.endswith_sep a
       then a +:+ b
       else a +:+ "/" +:+ b.

Fixpoint rstrip_sep_rev (r : list ascii) : list ascii :=
  match r with
  | c :: r' => if Ascii.eqb c "/"%char then rstrip_sep_rev r' else r
  | [] => []
  end.

Fixpoint drop_to_sep_rev (r : list ascii) : list ascii :=
  match r with
  | c :: r' => if Ascii.eqb c "/"%char then r else drop_to_sep_rev r'
  | [] => []
  end.

(** [os.path.dirname(p)]: the head up to the last slash, its trailing
    slashes stripped unless it is made of slashes only. *)
Definition dirname (p : string) : string :=
  let head := drop_to_sep_rev (rev (list_ascii_of_string p)) in
  match rstrip_sep_rev head with
  | [] => string_of_list_ascii (rev head)
  | stripped => string_of_list_ascii (rev stripped)
  end.

End Path.

(** ** Elements, events and markup *)

(** An [xml.etree] element: tag, attributes, text, children, tail.
    [None] text and tail are the empty string (the serializer does not
    tell them apart). *)
#[local] Unset Elimination Schemes.
Inductive Element : Type :=
  Elem (tag : string) (attrib : list (string * string)) (text : string)
       (children : list Element) (tail : string).
#[local] Set Elimination Schemes.

Definition tag (e : Element) : string := let 'Elem t _ _ _ _ := e in t.
Definition attrib (e : Element) := let 'Elem _ a _ _ _ := e in a.
Definition text (e : Element) : string := let 'Elem _ _ x _ _ := e in x.
Definition children (e : Element) : list Element := let 'Elem _ _ _ c _ := e in c.
Definition tail (e : Element) : string := let 'Elem _ _ _ _ l := e in l.

(** [Element.clear()]: drops the children and the attributes, resets
    text and tail.  The tag stays. *)
Definition clear (e : Element) : Element :=
  Elem (tag e) [] EmptyString [] EmptyString.

(** Every element of a tree, the tree's root included, in the order of
    the closing tags. *)
Fixpoint elements (e : Element) : list Element :=
  match e with
  | Elem _ _ _ ch _ => flat_map elements ch ++ [e]
  end.

Inductive EventKind : Type := start | end_.

Global Instance EventKind_eq_dec : EqDecision EventKind.
Proof. solve_decision. Defined.

(** One item of [iterparse]: the pair [(event, elem)].  [ev_root] records
    that [elem] is the root object of the parse that delivered it. *)
Record event : Type := Ev {
  ev_kind : EventKind;
  ev_elem : Element;
  ev_root : bool
}.

(** The events of a complete tree: start, the children's events, end. *)
Fixpoint events_of (is_root : bool) (e : Element) : list event :=
  match e with
  | Elem _ _ _ ch _ =>
      Ev start e is_root :: flat_map (events_of false) ch ++ [Ev end_ e is_root]
  end.

(** Markup, as the serializer writes it and the parser reads it. *)
Inductive token : Type :=
| XmlDecl (version encoding : string)
| STag (name : string) (attrs : list (string * string))
| ETag (name : string)
| EmptyTag (name : string) (attrs : list (string * string))
| CharData (s : string).

Definition chardata (s : string) : list token :=
  match s with
  | EmptyString => []
  | _ => [CharData s]
  end.

(** [ET.tostring(element, encoding='utf-8')]: the element, its subtree
    and its tail; no declaration for this encoding; an element without
    text and children is written as an empty-element tag. *)
Fixpoint tostring (e : Element) : list token :=
  match e with
  | Elem tg at_ tx ch tl =>
      match tx, ch with
      | EmptyString, [] => [EmptyTag tg at_]
      | _, _ => STag tg at_ :: chardata tx ++ flat_map tostring ch ++ [ETag tg]
      end ++ chardata tl
  end.

(** The two literal writes before the elements and the one after them:
    [b'<?xml version="1.0" encoding="UTF-8"?>\n'], [b'<osm>\n  '] and
    [b'</osm>']. *)
Definition LF : string := String "010"%char EmptyString.
Definition XML_DECL : list token := [XmlDecl "1.0" "UTF-8"; CharData LF].
Definition ROOT_OPEN : list token := [STag "osm" []; CharData (LF +:+ "  ")].
Definition ROOT_CLOSE : list token := [ETag "osm"].

(** *** Reading markup back *)

(** An element under construction: its children are kept newest first. *)
Record frame : Type := Frame {
  fr_tag : string;
  fr_attrs : list (string * string);
  fr_text : string;
  fr_kids : list Element
}.

Definition add_child (e : Element) (f : frame) : frame :=
  Frame (fr_tag f) (fr_attrs f) (fr_text f) (e :: fr_kids f).

(** Character data goes to the text of an element that has no child yet,
    and to the tail of its newest child otherwise. *)
Definition add_text (s : string) (f : frame) : frame :=
  match fr_kids f with
  | [] => Frame (fr_tag f) (fr_attrs f) (fr_text f +:+ s) []
  | Elem t a x c l :: ks =>
      Frame (fr_tag f) (fr_attrs f) (fr_text f) (Elem t a x c (l +:+ s) :: ks)
  end.

Definition close_frame (f : frame) : Element :=
  Elem (fr_tag f) (fr_attrs f) (fr_text f) (rev (fr_kids f)) EmptyString.

(** The content of the element [top], opened inside the elements of
    [stack], up to the end tag of the outermost one.  Returns that
    outermost element and the tokens after it. *)
Fixpoint build (stack : list frame) (top : frame) (toks : list token)
  : option (Element * list token) :=
  match toks with
  | [] => None
  | XmlDecl _ _ :: _ => None
  | STag n a :: r => build (top :: stack) (Frame n a EmptyString []) r
  | EmptyTag n a :: r =>
      build stack (add_child (Elem n a EmptyString [] EmptyString) top) r
  | CharData s :: r => build stack (add_text s top) r
  | ETag n :: r =>
      if String.eqb n (fr_tag top) then
        match stack with
        | [] => Some (close_frame top, r)
        | parent :: st => build st (add_child (close_frame top) parent) r
        end
      else None
  end.

Definition is_space (c : ascii) : bool :=
  Ascii.eqb c " "%char || Ascii.eqb c "009"%char ||
  Ascii.eqb c "010"%char || Ascii.eqb c "013"%char.

Definition is_blank (t : token) : bool :=
  match t with
  | CharData s => forallb is_space (list_ascii_of_string s)
  | _ => false
  end.

Fixpoint skip_blank (toks : list token) : list token :=
  match toks with
  | t :: r => if is_blank t then skip_blank r else toks
  | [] => []
  end.

(** A document: an optional declaration, one root element, and nothing
    but white space around it.  [None] is a parse error. *)
Definition parse_document (toks : list token) : option Element :=
  let body := match toks with XmlDecl _ _ :: r => r | _ => toks end in
  match skip_blank body with
  | STag n a :: r =>
      match build [] (Frame n a EmptyString []) r with
      | Some (e, rest) => if forallb is_blank rest then Some e else None
      | None => None
      end
  | EmptyTag n a :: r =>
      if forallb is_blank r then Some (Elem n a EmptyString [] EmptyString) else None
  | _ => None
  end.

(** ** Exceptions and results *)

(** The exceptions the program raises or lets through.  [IOError] is the
    one the program raises itself; [FileNotFoundError] and
    [IsADirectoryError], two of its subclasses, come from [open];
    [ParseError] and [StopIteration] come from the event cursor,
    [ZeroDivisionError] from [%], [AttributeError] from a method call on
    [None]. *)
Inductive exn : Type :=
| ValueError (msg : string)
| IOError (msg : string)
| FileNotFoundError (path : string)
| IsADirectoryError (path : string)
| ParseError
| StopIteration
| ZeroDivisionError
| AttributeError.

Inductive result (A : Type) : Type :=
| Ok (a : A)
| Raise (e : exn).
Arguments Ok {A} a.
Arguments Raise {A} e.

(** The spec's error classes. *)
Inductive ErrorClass : Type := FormatError | PathError | ValidationError | OtherError.

Definition MSG_EXTENSION : string := "Error in OSM file".
Definition MSG_ROOT : string := "OpenStreetDataMap Error".
Definition MSG_EXPORT : string := "Export value and export_files doesn't match".
Definition MSG_TAGS : string := "Given tags are not present in XML".
Definition MSG_PATH : string := "The path doesn't exist.".
Definition MSG_EXPORT_TYPE : string := "Export files must OSM type".

(** Modelled from the spec: the error taxonomy of its section 7, which
    the source does not declare (it raises [ValueError] and [IOError]).
    The format and validation errors are the [ValueError]s of the raise
    sites the spec describes under each, and the parser's own error; a
    path error is an [IOError], which in Python 3 is [OSError] and so
    takes in the errors of [open]. *)
Definition classify (e : exn) : ErrorClass :=
  match e with
  | ValueError m =>
      if String.eqb m MSG_EXTENSION || String.eqb m MSG_ROOT || String.eqb m MSG_EXPORT_TYPE
      then FormatError
      else if String.eqb m MSG_EXPORT || String.eqb m MSG_TAGS then ValidationError
      else OtherError
  | ParseError => FormatError
  | IOError _ | FileNotFoundError _ | IsADirectoryError _ => PathError
  | _ => OtherError
  end.

(** A state-and-exception monad: a raised exception keeps the state
    reached so far. *)
Definition M (S A : Type) : Type := S -> result A * S.

Global Instance M_ret {S} : MRet (M S) := fun A a s => (Ok a, s).
Global Instance M_bind {S} : MBind (M S) := fun A B k m s =>
  match m s with
  | (Ok a, s') => k a s'
  | (Raise e, s') => (Raise e, s')
  end.
Definition raise {S A} (e : exn) : M S A := fun s => (Raise e, s).
Definition get {S} : M S S := fun s => (Ok s, s).
Definition modify {S} (f : S -> S) : M S unit := fun s => (Ok tt, f s).

(** [for x in l: body(x)] *)
Fixpoint for_each {S A} (l : list A) (body : A -> M S unit) : M S unit :=
  match l with
  | [] => mret tt
  | x :: l' => body x ;; for_each l' body
  end.

(** ** Source documents, the event cursor and the file system *)

(** What the XML parser makes of a source file: the tree of a well-formed
    document ([cut = None]), or, for a document that is broken somewhere,
    the number of events delivered before the parse error. *)
Record Source : Type := {
  doc : Element;
  cut : option nat
}.

(** [iter(ET.iterparse(...))]: the events still to be delivered, and
    whether a parse error follows them. *)
Record cursor : Type := Cursor {
  pending : list event;
  broken : bool
}.

Definition open_cursor (s : Source) : cursor :=
  match cut s with
  | None => Cursor (events_of true (doc s)) false
  | Some n => Cursor (take n (events_of true (doc s))) true
  end.

(** [next(it)]: after the last event the cursor raises [ParseError] once
    if the document is broken, and [StopIteration] from then on. *)
Definition next (c : cursor) : result event * cursor :=
  match pending c with
  | ev :: rest => (Ok ev, Cursor rest (broken c))
  | [] => (Raise (if broken c then ParseError else StopIteration), Cursor [] false)
  end.

Inductive file : Type :=
| SourceFile (s : Source)
| OutputFile (content : list token).

(** Directories and files are named by the path strings the program
    passes; which of them exist is the environment's part. *)
Record FS : Type := {
  dirs : gset string;
  files : gmap string file
}.

(** [os.path.exists(p)] *)
Definition path_exists (fs : FS) (p : string) : bool :=
  bool_decide (p ∈ dirs fs) || bool_decide (is_Some (files fs !! p)).

(** [iter(ET.iterparse(path, events=('start', 'end')))]: opens the file
    at once.  A file written by an export is read through
    [parse_document]; one that is not a document fails at the first
    event. *)
Definition iterparse (path : string) : M FS cursor :=
  fs ← get;
  match files fs !! path with
  | None => raise (FileNotFoundError path)
  | Some (SourceFile s) => mret (open_cursor s)
  | Some (OutputFile toks) =>
      match parse_document toks with
      | Some t => mret (open_cursor {| doc := t; cut := None |})
      | None => mret (Cursor [] true)
      end
  end.

(** [open(path, 'wb')]: the directory must exist; the file is created or
    truncated. *)
Definition open_wb (path : string) : M FS unit :=
  fs ← get;
  if bool_decide (path ∈ dirs fs) then raise (IsADirectoryError path)
  else if bool_decide (Path.dirname path ∈ dirs fs)
       then modify (fun fs => {| dirs := dirs fs; files := <[path := OutputFile []]> (files fs) |})
       else raise (FileNotFoundError path).

(** [output.write(data)] on the file opened at [path]. *)
Definition append_file (path : string) (data : list token) (fs : FS) : FS :=
  match files fs !! path with
  | Some (OutputFile c) =>
      {| dirs := dirs fs; files := <[path := OutputFile (c ++ data)]> (files fs) |}
  | _ => fs
  end.

Definition write (path : string) (data : list token) : M FS unit :=
  modify (append_file path data).

(** ** ParserXML *)

(** The attributes [ParserXML.__init__] sets.  [root] is [None] until
    [_check_root] binds it; [root_current] records that [root] is the
    root object of the parse behind [_context] (and not of an earlier
    parse). *)
Record ParserXML : Type := {
  source : string;
  _context : cursor;
  root : option Element;
  root_current : bool
}.

Definition set_context (c : cursor) (p : ParserXML) : ParserXML :=
  {| source := source p; _context := c; root := root p; root_current := root_current p |}.

Definition set_root (e : Element) (current : bool) (p : ParserXML) : ParserXML :=
  {| source := source p; _context := _context p; root := Some e; root_current := current |}.

(** [next(self._context)] *)
Definition next_event : M ParserXML event :=
  fun p => let '(r, c) := next (_context p) in (r, set_context c p).

(** [ParserXML._check_root] *)
Definition _check_root : M ParserXML unit :=
  ev ← next_event;
  modify (set_root (ev_elem ev) (ev_root ev));;
  if negb (String.eqb (Str.lower (tag (ev_elem ev))) "osm")
  then raise (ValueError MSG_ROOT)
  else mret tt.

(** Runs a computation on a part of the state. *)
Definition zoom {S T A} (proj : S -> T) (upd : T -> S -> S) (m : M T A) : M S A :=
  fun s => let '(r, t) := m (proj s) in (r, upd t s).

(** [ParserXML.__init__(osmFile)], with the module constant [RES]. *)
Definition ParserXML_init (RES osmFile : string) : M FS ParserXML :=
  if negb (String.eqb (Str.lower (Str.extension osmFile)) "osm")
  then raise (ValueError MSG_EXTENSION)
  else
    let src := Path.join RES osmFile in
    ctx ← iterparse src;
    match _check_root {| source := src; _context := ctx; root := None; root_current := false |} with
    | (Ok _, p) => mret p
    | (Raise e, _) => raise e
    end.

(** ** DataFramerXML *)

(** The values an option of the constructor may take, as far as the
    program looks at them: identity with [None] and truth value. *)
Inductive pyval : Type :=
| PyNone
| PyBool (b : bool)
| PyInt (n : Z)
| PyStr (s : string)
| PyDict (d : list (string * Z)).

Definition truthy (v : pyval) : bool :=
  match v with
  | PyNone => false
  | PyBool b => b
  | PyInt n => negb (n =? 0)
  | PyStr s => negb (String.eqb s EmptyString)
  | PyDict d => match d with [] => false | _ => true end
  end.

Definition is_None (v : pyval) : bool :=
  match v with PyNone => true | _ => false end.

(** The keyword options; an option that is not passed is [None].  A dict
    is the list of its items in iteration order. *)
Record kwargs : Type := {
  kw_files : option (list (string * Z));
  kw_export : pyval;
  kw_tagValidation : option bool;
  kw_root : option string
}.

Record DataFramerXML : Type := {
  base : ParserXML;
  tags : list string;
  export_files : option (list (string * Z));
  export : pyval;
  tagValidation : bool;
  rootPath : string
}.

Definition set_base (p : ParserXML) (d : DataFramerXML) : DataFramerXML :=
  {| base := p; tags := tags d; export_files := export_files d; export := export d;
     tagValidation := tagValidation d; rootPath := rootPath d |}.

Definition on_base {A} (m : M ParserXML A) : M DataFramerXML A := zoom base set_base m.

(** [for event, elem in self.context: allTags.add(elem.tag)] *)
Fixpoint collect_tags (evs : list event) (allTags : gset string) : gset string :=
  match evs with
  | [] => allTags
  | ev :: rest => collect_tags rest (allTags ∪ {[ tag (ev_elem ev) ]})
  end.

(** The whole loop over the cursor: it leaves the cursor exhausted. *)
Definition scan_tags : M ParserXML (gset string) :=
  p ← get;
  modify (set_context (Cursor [] false));;
  if broken (_context p) then raise ParseError
  else mret (collect_tags (pending (_context p)) ∅).

(** [DataFramerXML._validate] *)
Definition _validate : M DataFramerXML unit :=
  self ← get;
  (if negb (truthy (export self)) then mret tt
   else if is_None (export self) && bool_decide (export_files self ≠ None)
           || negb (is_None (export self)) && bool_decide (export_files self = None)
        then raise (ValueError MSG_EXPORT)
        else mret tt);;
  if tagValidation self then
    allTags ← on_base scan_tags;
    for_each (tags self) (fun each =>
      if bool_decide (each ∉ allTags) then raise (ValueError MSG_TAGS) else mret tt)
  else mret tt.

(** [DataFramerXML.__init__(osmFile, tags, **kwargs)] *)
Definition DataFramerXML_init (RES osmFile : string) (tags : list string) (kw : kwargs)
  : M FS DataFramerXML :=
  p ← ParserXML_init RES osmFile;
  match _validate {| base := p; tags := tags;
                     export_files := kw_files kw; export := kw_export kw;
                     tagValidation := default false (kw_tagValidation kw);
                     rootPath := default "." (kw_root kw) |} with
  | (Ok _, self) => mret self
  | (Raise e, _) => raise e
  end.

(** *** Exporting *)

Record world : Type := World {
  self : DataFramerXML;
  fs : FS
}.

Definition on_self {A} (m : M DataFramerXML A) : M world A :=
  zoom self (fun d w => World d (fs w)) m.
Definition on_fs {A} (m : M FS A) : M world A :=
  zoom fs (fun f w => World (self w) f) m.

(** The element an event hands over, as the consumer sees it: the root
    object of the current parse is the object [self.root] names, with
    whatever [clear] has done to it. *)
Definition deref (p : ParserXML) (ev : event) : Element :=
  if ev_root ev && root_current p then default (ev_elem ev) (root p) else ev_elem ev.

(** [self.root.clear()] *)
Definition clear_root : M ParserXML unit :=
  p ← get;
  match root p with
  | None => raise AttributeError
  | Some r => modify (set_root (clear r) (root_current p))
  end.

(** [event == 'end' and elem.tag in self.tags] *)
Definition selected (tgs : list string) (ev : event) : bool :=
  bool_decide (ev_kind ev = end_) && bool_decide (tag (ev_elem ev) ∈ tgs).

(** The loop of [export_dataset] over [enumerate(self._get_element(...))],
    run as the interpreter runs it, the generator's body in line: the
    events up to the next selected one are skipped; the selected element
    is handed to the loop body, which writes it when [i % factor == 0];
    the generator then resumes with [self.root.clear()].  [evs] and
    [brk] are the cursor, which the state follows at every step that can
    raise.  [stream_and_write_exact] relates the loop to the sequence
    [_get_element] below. *)
Fixpoint stream_and_write (path : string) (factor : Z)
    (evs : list event) (brk : bool) (i : Z) : M world unit :=
  match evs with
  | [] =>
      on_self (on_base (modify (set_context (Cursor [] false))));;
      if brk then raise ParseError else mret tt
  | ev :: rest =>
      w ← get;
      if selected (tags (self w)) ev then
        on_self (on_base (modify (set_context (Cursor rest brk))));;
        let element := deref (base (self w)) ev in
        (if factor =? 0 then raise ZeroDivisionError
         else if i mod factor =? 0 then on_fs (write path (tostring element))
         else mret tt);;
        on_self (on_base clear_root);;
        stream_and_write path factor rest brk (i + 1)
      else stream_and_write path factor rest brk i
  end.

(** One turn of the loop over [self.export_files.items()]. *)
Definition export_pass (default_path export_file : string) (factor : Z) : M world unit :=
  if negb (String.eqb (Str.extension export_file) "osm")
  then raise (ValueError MSG_EXPORT_TYPE)
  else
    let path := Path.join default_path export_file in
    on_fs (open_wb path);;
    on_fs (write path XML_DECL);;
    on_fs (write path ROOT_OPEN);;
    w ← get;
    stream_and_write path factor
      (pending (_context (base (self w)))) (broken (_context (base (self w)))) 0;;
    on_fs (write path ROOT_CLOSE);;
    w ← get;
    ctx ← on_fs (iterparse (source (base (self w))));
    on_self (on_base (modify (fun p =>
      {| source := source p; _context := ctx; root := root p; root_current := false |}))).

(** [DataFramerXML.export_dataset(default_path)] *)
Definition export_dataset (default_path : string) : M world unit :=
  w ← get;
  if negb (path_exists (fs w) (rootPath (self w))) then raise (IOError MSG_PATH)
  else
    match export_files (self w) with
    | None => raise AttributeError
    | Some items =>
        for_each items (fun '(export_file, factor) =>
          export_pass default_path export_file factor)
    end.

(** ** The generator and the sample, as sequences *)

(** [ParserXML._get_element]: the elements the generator yields over the
    events [evs], as its consumer sees them.  The consumer touches
    neither the cursor nor the root, so the sequence is fixed by the
    events and by the object behind [self.root]: [rt] is that object,
    cleared when the generator resumes after a yield, and [rc] tells
    whether the root of the running parse is that object. *)
Fixpoint _get_element (tgs : list string) (rt : Element) (rc : bool) (evs : list event)
  : list Element :=
  match evs with
  | [] => []
  | ev :: rest =>
      if selected tgs ev
      then (if ev_root ev && rc then rt else ev_elem ev) :: _get_element tgs (clear rt) rc rest
      else _get_element tgs rt rc rest
  end.

(** The elements the loop body writes: those whose running index is a
    multiple of [factor], the index of the first one being [i]. *)
Fixpoint sample {A} (factor i : Z) (ys : list A) : list A :=
  match ys with
  | [] => []
  | y :: rest =>
      if i mod factor =? 0 then y :: sample factor (i + 1) rest
      else sample factor (i + 1) rest
  end.

(** [off] is the number of elements to skip before the next kept one,
    when the running index is [i]. *)
Definition next_hit (k i : Z) (off : nat) : Prop :=
  (Z.of_nat off < k) /\ (i + Z.of_nat off) mod k = 0.

(** The source elements whose tag is in the filter, in document order. *)
Definition filtered (tgs : list string) (d : Element) : list Element :=
  filter (fun e => tag e ∈ tgs) (elements d).

(** [ceil(m / k)] for a positive [k]. *)
Definition ceil_div (m k : Z) : Z := (m + k - 1) / k.

(** The content of a finished output file holding the elements [es]. *)
Definition document_of (es : list Element) : list token :=
  XML_DECL ++ ROOT_OPEN ++ flat_map tostring es ++ ROOT_CLOSE.

(** The content of an output file whose pass was cut short after [es]. *)
Definition partial_of (es : list Element) : list token :=
  XML_DECL ++ ROOT_OPEN ++ flat_map tostring es.

Definition content_at (fs : FS) (path : string) : option (list token) :=
  match files fs !! path with
  | Some (OutputFile c) => Some c
  | _ => None
  end.

(** The exporter once a pass has run the cursor dry: [rt] is what is
    left of the object behind [self.root]. *)
Definition exhaust (rt : Element) (d : DataFramerXML) : DataFramerXML :=
  set_base {| source := source (base d); _context := Cursor [] false;
              root := Some rt; root_current := root_current (base d) |} d.

(** The exporter at the end of a pass, the source [s] reopened. *)
Definition reopened (s : Source) (rt : Element) (d : DataFramerXML) : DataFramerXML :=
  set_base {| source := source (base d); _context := open_cursor s;
              root := Some rt; root_current := false |} d.

(** The exceptions that come from inside the loop over the elements:
    from the cursor, from [%], from [self.root.clear()]. *)
Definition streaming_failure (e : exn) : Prop :=
  e = ParseError \/ e = ZeroDivisionError \/ e = AttributeError.

Arguments partial_of : simpl never.
Arguments document_of : simpl never.

(** The option cross-check of [_validate] lets the options through. *)
Definition export_consistent (v : pyval) (fl : option (list (string * Z))) : Prop :=
  truthy v = false \/ fl <> None.

(** The exporter has just reopened the well-formed source [s]. *)
Definition fresh (s : Source) (w : world) : Prop :=
  cut s = None
  /\ _context (base (self w)) = open_cursor s
  /\ root_current (base (self w)) = false
  /\ is_Some (root (base (self w)))
  /\ files (fs w) !! source (base (self w)) = Some (SourceFile s).

(** The destination [fst fk] can be written under [dp]: it has the
    extension, its directory exists, it is not a directory itself and it
    is not the source. *)
Definition dest_ok (dp : string) (w : world) (fk : string * Z) : Prop :=
  Str.extension (fst fk) = "osm"
  /\ (Path.join dp (fst fk) ∉ dirs (fs w))
  /\ Path.dirname (Path.join dp (fst fk)) ∈ dirs (fs w)
  /\ Path.join dp (fst fk) <> source (base (self w)).

Definition dest_path (dp : string) (fk : string * Z) : string := Path.join dp (fst fk).

(** *** Bytes *)

(** The bytes of the markup: what [output.write] receives.  Text escapes
    the ampersand and the angle brackets; an attribute value also the
    double quote, the tab and the line ends (a carriage return, with the
    line feed that may follow it, counts as one line feed). *)
Definition QUOTE : string := String (ascii_of_nat 34) EmptyString.

Definition escape_markup (c : ascii) : option string :=
  if Ascii.eqb c "&"%char then Some "&amp;"
  else if Ascii.eqb c "<"%char then Some "&lt;"
  else if Ascii.eqb c ">"%char then Some "&gt;"
  else None.

Fixpoint escape_cdata (s : string) : string :=
  match s with
  | EmptyString => EmptyString
  | String c r => default (String c EmptyString) (escape_markup c) +:+ escape_cdata r
  end.

Fixpoint escape_attrib (s : string) : string :=
  match s with
  | EmptyString => EmptyString
  | String c r =>
      match escape_markup c with
      | Some e => e +:+ escape_attrib r
      | None =>
          if Ascii.eqb c (ascii_of_nat 34) then "&quot;" +:+ escape_attrib r
          else if Ascii.eqb c "009"%char then "&#09;" +:+ escape_attrib r
          else if Ascii.eqb c "010"%char then "&#10;" +:+ escape_attrib r
          else if Ascii.eqb c "013"%char then
            "&#10;" +:+ match r with
                        | String c' r' =>
                            if Ascii.eqb c' "010"%char then escape_attrib r'
                            else escape_attrib r
                        | EmptyString => EmptyString
                        end
          else String c (escape_attrib r)
      end
  end.

Fixpoint render_attrs (a : list (string * string)) : string :=
  match a with
  | [] => EmptyString
  | (k, v) :: r => " " +:+ k +:+ "=" +:+ QUOTE +:+ escape_attrib v +:+ QUOTE +:+ render_attrs r
  end.

Definition render_token (t : token) : string :=
  match t with
  | XmlDecl v e =>
      "<?xml version=" +:+ QUOTE +:+ v +:+ QUOTE +:+ " encoding=" +:+ QUOTE +:+ e +:+ QUOTE +:+ "?>"
  | STag n a => "<" +:+ n +:+ render_attrs a +:+ ">"
  | ETag n => "</" +:+ n +:+ ">"
  | EmptyTag n a => "<" +:+ n +:+ render_attrs a +:+ " />"
  | CharData s => escape_cdata s
  end.

Fixpoint render (toks : list token) : string :=
  match toks with
  | [] => EmptyString
  | t :: r => render_token t +:+ render r
  end.

(** ** A small environment to run the program in *)

Module Sample.

Definition node (id : string) : Element :=
  Elem "node" [("id", id)] EmptyString [] EmptyString.

Definition way (id : string) : Element :=
  Elem "way" [("id", id)] EmptyString
    [Elem "nd" [("ref", "1")] EmptyString [] EmptyString] EmptyString.

(** Five nodes and two ways under the root. *)
Definition children_of_map : list Element :=
  [node "1"; node "2"; way "10"; node "3"; node "4"; way "11"; node "5"].

Definition map_doc : Element :=
  Elem "osm" [("version", "0.6")] EmptyString children_of_map EmptyString.

(** The same map under a root spelled in capitals. *)
Definition capital_doc : Element :=
  Elem "OSM" [("version", "0.6")] EmptyString children_of_map EmptyString.

(** [map.osm] is well formed, [capital.osm] has the root [OSM], and
    [torn.osm] breaks off after two nodes.  The directories [.] and
    [/res] exist; [/elsewhere] does not. *)
Definition env : FS :=
  {| dirs := {[ "."; "/res" ]};
     files := {[ "/res/map.osm" := SourceFile {| doc := map_doc; cut := None |};
                 "/res/capital.osm" := SourceFile {| doc := capital_doc; cut := None |};
                 "/res/MAP.OSM" := SourceFile {| doc := map_doc; cut := None |};
                 "/res/torn.osm" := SourceFile {| doc := map_doc; cut := Some 5%nat |} ]} |}.

(** [files={name: factor}], nothing else passed. *)
Definition only_files (name : string) (factor : Z) : kwargs :=
  {| kw_files := Some [(name, factor)]; kw_export := PyNone;
     kw_tagValidation := None; kw_root := None |}.

(** [files={name: factor}, tagValidation=True] *)
Definition validated (name : string) (factor : Z) : kwargs :=
  {| kw_files := Some [(name, factor)]; kw_export := PyNone;
     kw_tagValidation := Some true; kw_root := None |}.

(** [export=True], no [files]. *)
Definition only_export : kwargs :=
  {| kw_files := None; kw_export := PyBool true;
     kw_tagValidation := None; kw_root := None |}.

(** An exporter as the constructor leaves it when no option but
    [files] is passed: [src] its source path, [ctx] its cursor, [root]
    bound to the root [d] of that parse. *)
Definition exporter (d : Element) (src : string) (ctx : cursor) (tgs : list string)
    (fl : option (list (string * Z))) : DataFramerXML :=
  {| base := {| source := src; _context := ctx;
                root := Some d; root_current := true |};
     tags := tgs; export_files := fl; export := PyNone;
     tagValidation := false; rootPath := "." |}.

(** The exporter over [map.osm] as the constructor leaves it when no
    option but [files] is passed. *)
Definition map_exporter (tgs : list string) (fl : option (list (string * Z)))
  : DataFramerXML :=
  exporter map_doc "/res/map.osm" (Cursor (List.tl (events_of true map_doc)) false) tgs fl.

(** The exporter the constructor returns for [map.osm], the filter
    [node], the stride map [fl] and [tagValidation=True]: the cursor
    has been run dry. *)
Definition validated_exporter (fl : list (string * Z)) : DataFramerXML :=
  {| base := {| source := "/res/map.osm"; _context := Cursor [] false;
                root := Some map_doc; root_current := true |};
     tags := ["node"]; export_files := Some fl; export := PyNone;
     tagValidation := true; rootPath := "." |}.

(** The exporter built by [DataFramerXML(name, tags, **kw)], if the
    constructor returns. *)
Definition build (name : string) (tgs : list string) (kw : kwargs) : option DataFramerXML :=
  match DataFramerXML_init "/res" name tgs kw env with
  | (Ok obj, _) => Some obj
  | (Raise _, _) => None
  end.

(** Builds the exporter, calls [export_dataset(dp)] once and reads the
    file at [path]. *)
Definition exported (name : string) (tgs : list string) (kw : kwargs) (dp path : string)
  : option (result unit * option (list token)) :=
  obj ← build name tgs kw;
  let '(r, w) := export_dataset dp (World obj env) in
  Some (r, content_at (fs w) path).

(** The same with two calls of [export_dataset(dp)] on the one
    exporter, the file read after each. *)
Definition exported_twice (name : string) (tgs : list string) (kw : kwargs) (dp path : string)
  : option ((result unit * option (list token)) * (result unit * option (list token))) :=
  obj ← build name tgs kw;
  let '(r1, w1) := export_dataset dp (World obj env) in
  let '(r2, w2) := export_dataset dp w1 in
  Some ((r1, content_at (fs w1) path), (r2, content_at (fs w2) path)).

End Sample.

(** * Properties *)

(** ** Sampling arithmetic *)

Section Sampling.
Context {A : Type}.
Implicit Types (ys : list A) (k i : Z) (off j : nat).

Lemma ceil_div_spec m k :
  1 <= k -> k * (ceil_div m k - 1) < m <= k * ceil_div m k.
Proof.
  intros Hk. unfold ceil_div.
  pose proof (Z.div_mod (m + k - 1) k ltac:(lia)) as Hdm.
  pose proof (Z.mod_pos_bound (m + k - 1) k ltac:(lia)) as Hb.
  lia.
Qed.

(** With stride 1 every element is kept. *)
Lemma sample_one i ys : sample 1 i ys = ys.
Proof.
  revert i. induction ys as [|y ys IH]; intros i; simpl; [done|].
  rewrite Z.mod_1_r. simpl. by rewrite IH.
Qed.

Lemma next_hit_zero k i off :
  1 <= k -> next_hit k i off -> (i mod k = 0 <-> off = 0%nat).
Proof.
  intros Hk [Hlt Hmod]. split.
  - intros Hi. rewrite Z.add_mod, Hi, Z.add_0_l, Z.mod_mod in Hmod by lia.
    rewrite Z.mod_small in Hmod by lia. lia.
  - intros ->. by rewrite Z.add_0_r in Hmod.
Qed.

Lemma next_hit_after_hit k i :
  1 <= k -> i mod k = 0 -> next_hit k (i + 1) (Z.to_nat (k - 1)).
Proof.
  intros Hk Hi. split; [lia|].
  replace (i + 1 + Z.of_nat (Z.to_nat (k - 1))) with (i + 1 * k) by lia.
  by rewrite Z.mod_add by lia.
Qed.

Lemma next_hit_step k i off :
  next_hit k i (S off) -> next_hit k (i + 1) off.
Proof.
  intros [Hlt Hmod]. split; [lia|].
  by replace (i + 1 + Z.of_nat off) with (i + Z.of_nat (S off)) by lia.
Qed.

Lemma sample_lookup_gen k ys : 1 <= k -> forall i off j,
  next_hit k i off ->
  sample k i ys !! j = ys !! (off + j * Z.to_nat k)%nat.
Proof.
  intros Hk. induction ys as [|y ys IH]; intros i off j Hoff; [done|].
  simpl. pose proof (next_hit_zero k i off Hk Hoff) as Hz.
  destruct (Z.eqb_spec (i mod k) 0) as [Hi|Hi].
  - assert (off = 0%nat) as -> by tauto.
    destruct j as [|j]; [done|]. simpl.
    rewrite (IH (i + 1) (Z.to_nat (k - 1)) j) by (by apply next_hit_after_hit).
    replace (Z.to_nat k + j * Z.to_nat k)%nat
      with (S (Z.to_nat (k - 1) + j * Z.to_nat k))%nat by lia.
    done.
  - destruct off as [|off]; [tauto|]. simpl.
    apply IH, next_hit_step, Hoff.
Qed.

Lemma sample_length_gen k ys : 1 <= k -> forall i off,
  next_hit k i off ->
  Z.of_nat (length (sample k i ys)) = ceil_div (Z.of_nat (length ys) - Z.of_nat off) k.
Proof.
  intros Hk. induction ys as [|y ys IH]; intros i off Hoff.
  - simpl. unfold ceil_div. destruct Hoff as [Hlt _].
    symmetry. apply Z.div_small. lia.
  - simpl. pose proof (next_hit_zero k i off Hk Hoff) as Hz.
    destruct (Z.eqb_spec (i mod k) 0) as [Hi|Hi].
    + assert (off = 0%nat) as -> by tauto.
      simpl length. rewrite Nat2Z.inj_succ, (IH (i + 1) (Z.to_nat (k - 1)))
        by (by apply next_hit_after_hit).
      unfold ceil_div.
      rewrite <- Z.add_1_r, <- (Z.div_add _ 1 k) by lia. f_equal. lia.
    + destruct off as [|off]; [tauto|].
      rewrite (IH (i + 1) off) by apply next_hit_step, Hoff.
      f_equal. lia.
Qed.

(** Counting from 0, the [j]-th kept element is the one at index
    [j * k], and [ceil (n / k)] elements are kept. *)
Lemma sample_lookup k ys j :
  1 <= k -> sample k 0 ys !! j = ys !! (j * Z.to_nat k)%nat.
Proof.
  intros Hk. rewrite (sample_lookup_gen k ys Hk 0 0%nat j); [done|].
  split; [lia|]. by rewrite Z.mod_0_l by lia.
Qed.

Lemma sample_length k ys :
  1 <= k -> Z.of_nat (length (sample k 0 ys)) = ceil_div (Z.of_nat (length ys)) k.
Proof.
  intros Hk. rewrite (sample_length_gen k ys Hk 0 0%nat).
  - f_equal. lia.
  - split; [lia|]. by rewrite Z.mod_0_l by lia.
Qed.

End Sampling.

(** ** Trees, events and markup *)

(** Induction over a tree, with the property in hand for every child. *)
Lemma Element_ind (P : Element -> Prop) :
  (forall tg at_ tx ch tl, Forall P ch -> P (Elem tg at_ tx ch tl)) ->
  forall e, P e.
Proof.
  intros step. fix IH 1. intros [tg at_ tx ch tl]. apply step.
  induction ch as [|c ch IHch]; constructor; [apply IH | apply IHch].
Qed.

Section Events.
Context (P : Element -> Prop) `{!forall e, Decision (P e)}.

(** The end events of a tree are its elements, in the same order. *)
Lemma end_events_of e b :
  ev_elem <$> filter (fun ev => ev_kind ev = end_ /\ P (ev_elem ev)) (events_of b e)
  = filter P (elements e).
Proof.
  revert b. induction e as [tg at_ tx ch tl IH] using Element_ind. intros b.
  cbn [events_of elements].
  rewrite filter_cons_False by (intros [? _]; done).
  rewrite !filter_app, fmap_app. f_equal.
  - induction IH as [|c ch Hc _ IHch]; [done|].
    cbn [flat_map]. rewrite !filter_app, fmap_app. by rewrite Hc, IHch.
  - rewrite !filter_cons, !filter_nil. cbn.
    destruct (decide (end_ = end_ /\ _)) as [[_ ?]|?], (decide (P _));
      first [done | exfalso; tauto].
Qed.

(** Every event of a tree carries one of its elements. *)
Lemma events_of_elem e b ev : ev ∈ events_of b e -> ev_elem ev ∈ elements e.
Proof.
  revert b ev. induction e as [tg at_ tx ch tl IH] using Element_ind.
  intros b ev. cbn [events_of elements].
  rewrite elem_of_cons, !elem_of_app, !list_elem_of_singleton.
  intros [->|[Hin| ->]]; [by right | left | by right].
  apply list_elem_of_In, in_flat_map in Hin as (c & Hc & Hev).
  apply list_elem_of_In, in_flat_map. exists c. split; [done|].
  apply list_elem_of_In. rewrite Forall_forall in IH.
  apply (IH c (proj2 (list_elem_of_In _ _) Hc) false ev), list_elem_of_In, Hev.
Qed.

End Events.

(** Past the first event, the start of the root, a complete stream still
    has an event for every element. *)
Lemma events_of_tail e b :
  exists rest, events_of b e = Ev start e b :: rest /\
    (forall x, x ∈ elements e -> exists ev, ev ∈ rest /\ ev_elem ev = x).
Proof.
  destruct e as [tg at_ tx ch tl] eqn:He. eexists. split; [reflexivity|].
  rewrite <- He. intros x Hx.
  assert (x ∈ filter (fun _ => True) (elements e)) as Hf
    by (by apply list_elem_of_filter).
  rewrite <- (end_events_of (fun _ => True) e b) in Hf.
  apply list_elem_of_fmap in Hf as (ev & -> & Hev).
  apply list_elem_of_filter in Hev as [[Hk _] Hev].
  exists ev. split; [|done].
  rewrite He in Hev. cbn [events_of] in Hev.
  apply elem_of_cons in Hev as [->|Hev]; [done|]. by rewrite He.
Qed.

Lemma collect_tags_spec evs acc t :
  t ∈ collect_tags evs acc <-> t ∈ acc \/ exists ev, ev ∈ evs /\ tag (ev_elem ev) = t.
Proof.
  revert acc. induction evs as [|ev evs IH]; intros acc; simpl.
  - split; [by left|]. intros [?|(? & Hin & _)]; [done|]. by apply elem_of_nil in Hin.
  - rewrite IH, elem_of_union, elem_of_singleton. split.
    + intros [[?| ->]|(ev' & ? & ?)]; [by left | right | right].
      * exists ev. split; [left|done].
      * exists ev'. split; [by right|done].
    + intros [?|(ev' & Hin & ?)]; [by left; left|].
      apply elem_of_cons in Hin as [->|?]; [left; by right|].
      right. by exists ev'.
Qed.

(** The tags the validation pass collects from a complete stream whose
    first event is gone are the tags that occur in the document. *)
Lemma collect_tags_document d rest t :
  events_of true d = Ev start d true :: rest ->
  t ∈ collect_tags rest ∅ <-> t ∈ tag <$> elements d.
Proof.
  intros Hev. rewrite collect_tags_spec, list_elem_of_fmap. split.
  - intros [Hin|(ev & Hin & <-)]; [by apply elem_of_empty in Hin|].
    exists (ev_elem ev). split; [done|].
    apply (events_of_elem d true). rewrite Hev. by right.
  - intros (x & -> & Hx). right.
    destruct (events_of_tail d true) as (rest' & Heq & Hall).
    rewrite Hev in Heq. injection Heq as <-.
    destruct (Hall x Hx) as (ev & ? & <-). by exists ev.
Qed.

(** *** Serializing and reading back *)

Lemma build_tostring e : forall st top rest,
  build st top (tostring e ++ rest) = build st (add_child e top) rest.
Proof.
  induction e as [tg at_ tx ch tl IH] using Element_ind. intros st top rest.
  assert (forall kids st' rest',
    build st' (Frame tg at_ tx kids) (flat_map tostring ch ++ rest')
    = build st' (Frame tg at_ tx (rev ch ++ kids)) rest') as Hkids.
  { clear -IH. induction IH as [|c ch Hc _ IHch]; intros kids st' rest'; [done|].
    cbn [flat_map]. rewrite <- app_assoc, Hc. unfold add_child. cbn.
    rewrite IHch. by rewrite <- app_assoc. }
  assert (build st top (STag tg at_ :: chardata tx ++ flat_map tostring ch
                          ++ [ETag tg] ++ chardata tl ++ rest)
          = build st (add_child (Elem tg at_ tx ch tl) top) rest) as Hfull.
  { cbn [build].
    assert (build (top :: st) (Frame tg at_ EmptyString [])
              (chardata tx ++ flat_map tostring ch ++ [ETag tg] ++ chardata tl ++ rest)
            = build (top :: st) (Frame tg at_ tx [])
                (flat_map tostring ch ++ [ETag tg] ++ chardata tl ++ rest)) as ->
      by (by destruct tx).
    rewrite Hkids. cbn [app build fr_tag]. rewrite String.eqb_refl.
    unfold close_frame. cbn. rewrite app_nil_r, rev_involutive.
    by destruct tl. }
  destruct tx as [|c tx], ch as [|k ch];
    cbn [tostring]; try exact Hfull.
  - cbn. by destruct tl.
  - by rewrite <- Hfull, <- !app_comm_cons, <- !app_assoc.
  - by rewrite <- Hfull, <- !app_comm_cons, <- !app_assoc.
Qed.

Lemma build_tostring_list es : forall st top rest,
  build st top (flat_map tostring es ++ rest)
  = build st (Frame (fr_tag top) (fr_attrs top) (fr_text top) (rev es ++ fr_kids top)) rest.
Proof.
  induction es as [|e es IH]; intros st [tg at_ tx kids] rest; [done|].
  cbn [flat_map]. rewrite <- app_assoc, build_tostring, IH. cbn.
  by rewrite <- app_assoc.
Qed.

(** A finished output file reads back as one [osm] element that holds
    the written elements. *)
Lemma parse_document_of es :
  parse_document (document_of es)
  = Some (Elem "osm" [] (LF +:+ "  ") es EmptyString).
Proof.
  unfold parse_document, document_of. cbn.
  rewrite build_tostring_list. cbn. unfold close_frame. cbn.
  by rewrite app_nil_r, rev_involutive.
Qed.

(** A file whose pass was cut short does not read back at all. *)
Lemma parse_partial_of es : parse_document (partial_of es) = None.
Proof.
  unfold parse_document, partial_of. cbn.
  rewrite <- (app_nil_r (flat_map tostring es)), build_tostring_list. done.
Qed.

(** ** The file system, the loop and the pass *)

Lemma append_file_nil path fs : append_file path [] fs = fs.
Proof.
  destruct fs as [ds fl]. unfold append_file. cbn.
  destruct (fl !! path) as [[s|c]|] eqn:E; try done.
  rewrite app_nil_r. f_equal. by apply insert_id.
Qed.

Lemma append_file_app path a b fs :
  append_file path b (append_file path a fs) = append_file path (a ++ b) fs.
Proof.
  destruct fs as [ds fl]. unfold append_file. cbn.
  destruct (fl !! path) as [[s|c]|] eqn:E; cbn; rewrite ?E; try done.
  rewrite lookup_insert_eq, insert_insert_eq. by rewrite app_assoc.
Qed.

Lemma clear_clear e : clear (clear e) = clear e.
Proof. by destruct e. Qed.

Ltac unfold_m :=
  unfold on_self, on_fs, on_base, zoom, write, modify, get, raise, clear_root,
    mbind, M_bind, mret, M_ret, set_base, set_context, set_root in *.

Lemma stream_and_write_exact path factor brk : forall evs i w rt,
  factor <> 0 \/ evs = [] ->
  root (base (self w)) = Some rt ->
  stream_and_write path factor evs brk i w =
    (if brk then Raise ParseError else Ok tt,
     let ys := _get_element (tags (self w)) rt (root_current (base (self w))) evs in
     World (exhaust (match ys with [] => rt | _ => clear rt end) (self w))
           (append_file path (flat_map tostring (sample factor i ys)) (fs w))).
Proof.
  induction evs as [|ev evs IH]; intros i w rt Hk Hrt.
  - destruct w as [[[src ctx r rc] tgs ef ex tv rp] f]. cbn in Hrt. subst r.
    cbn. unfold_m. cbn. rewrite append_file_nil. unfold exhaust, set_base. cbn.
    by destruct brk.
  - destruct Hk as [Hk|?]; [|done].
    destruct w as [[[src ctx r rc] tgs ef ex tv rp] f]. cbn in Hrt. subst r.
    cbn [stream_and_write _get_element]. unfold mbind at 1, M_bind at 1, get at 1. cbn [self tags].
    destruct (selected tgs ev) eqn:Hsel.
    + destruct (Z.eqb_spec factor 0) as [|_]; [done|].
      cbn [sample].
      destruct (i mod factor =? 0); unfold_m; cbn.
      all: rewrite (IH _ _ (clear rt)) by (by try left); cbn; unfold exhaust, set_base; cbn.
      all: rewrite ?append_file_app, ?clear_clear; f_equal; f_equal.
      all: try by destruct (_get_element _ _ _ _).
    + rewrite (IH _ _ rt) by (by try left). done.
Qed.

Lemma content_at_append fs p c d :
  content_at fs p = Some c -> content_at (append_file p d fs) p = Some (c ++ d).
Proof.
  unfold content_at, append_file. destruct fs as [ds fl]. cbn.
  destruct (fl !! p) as [[s|c']|] eqn:E; try done. intros [= ->].
  cbn. by rewrite lookup_insert_eq.
Qed.

Lemma dirs_append fs p d : dirs (append_file p d fs) = dirs fs.
Proof. unfold append_file. by destruct (files fs !! p) as [[]|]. Qed.

Lemma partial_of_snoc es e : partial_of es ++ tostring e = partial_of (es ++ [e]).
Proof.
  unfold partial_of. rewrite flat_map_app. cbn [flat_map].
  by rewrite app_nil_r, <- !app_assoc.
Qed.

Lemma partial_of_close es : partial_of es ++ ROOT_CLOSE = document_of es.
Proof. unfold partial_of, document_of. by rewrite <- !app_assoc. Qed.

Lemma stream_and_write_partial path factor brk : forall evs i w es r w',
  content_at (fs w) path = Some (partial_of es) ->
  stream_and_write path factor evs brk i w = (r, w') ->
  (exists es', content_at (fs w') path = Some (partial_of es'))
  /\ dirs (fs w') = dirs (fs w)
  /\ source (base (self w')) = source (base (self w))
  /\ match r with
     | Ok _ => brk = false
     | Raise e => streaming_failure e
     end.
Proof.
  induction evs as [|ev evs IH]; intros i w es r w' Hc Hrun.
  - cbn in Hrun. unfold_m. cbn in Hrun. destruct brk; injection Hrun as <- <-; cbn.
    all: repeat split; eauto; by left.
  - cbn [stream_and_write] in Hrun.
    unfold mbind at 1, M_bind at 1, get at 1 in Hrun.
    destruct (selected (tags (self w)) ev); [|by eapply IH].
    destruct (Z.eqb_spec factor 0) as [|_].
    { unfold_m. cbn in Hrun. injection Hrun as <- <-. cbn.
      repeat split; eauto. right; by left. }
    destruct w as [[[src ctx [rt|] rc] tgs ef ex tv rp] f].
    2:{ destruct (i mod factor =? 0); unfold_m; cbn in Hrun; injection Hrun as <- <-; cbn.
        all: cbn in Hc; repeat split; eauto using dirs_append; try (right; by right).
        eexists. erewrite content_at_append by done. by rewrite partial_of_snoc. }
    destruct (i mod factor =? 0); unfold_m; cbn in Hrun, Hc.
    + eapply IH in Hrun as (? & ? & ? & ?); cbn.
      * repeat split; eauto. cbn in *. by rewrite dirs_append in *.
      * cbn. erewrite content_at_append by done. by rewrite partial_of_snoc.
    + eapply IH in Hrun as (? & ? & ? & ?); cbn; eauto.
Qed.

Lemma on_fs_write p d w :
  on_fs (write p d) w = (Ok tt, World (self w) (append_file p d (fs w))).
Proof. done. Qed.

Lemma on_fs_open_wb p w :
  on_fs (open_wb p) w =
    if bool_decide (p ∈ dirs (fs w)) then (Raise (IsADirectoryError p), w)
    else if bool_decide (Path.dirname p ∈ dirs (fs w))
         then (Ok tt, World (self w)
                 {| dirs := dirs (fs w); files := <[p := OutputFile []]> (files (fs w)) |})
         else (Raise (FileNotFoundError p), w).
Proof.
  destruct w as [d f]. unfold on_fs, zoom, open_wb. unfold_m. cbn.
  by repeat case_bool_decide.
Qed.

Lemma on_fs_iterparse p w :
  exists r, on_fs (iterparse p) w = (r, w) /\
    (r = Raise (FileNotFoundError p) <-> files (fs w) !! p = None) /\
    (forall s, files (fs w) !! p = Some (SourceFile s) -> r = Ok (open_cursor s)) /\
    (forall e, r = Raise e -> e = FileNotFoundError p).
Proof.
  destruct w as [d f]. unfold on_fs, zoom, iterparse. unfold_m. cbn.
  destruct (files f !! p) as [[s|c]|] eqn:E.
  - eexists. split; [done|]. repeat split; try done. by intros s' [= ->].
  - destruct (parse_document c); eexists; (split; [done|]); repeat split; done.
  - eexists. split; [done|]. repeat split; try done. by intros e [= <-].
Qed.

Lemma export_pass_outcome dp f k w r w' :
  export_pass dp f k w = (r, w') ->
  match r with
  | Ok _ =>
      broken (_context (base (self w))) = false /\
      exists es, content_at (fs w') (Path.join dp f) = Some (document_of es)
  | Raise e =>
      streaming_failure e ->
      exists es, content_at (fs w') (Path.join dp f) = Some (partial_of es)
  end.
Proof.
  unfold export_pass. set (path := Path.join dp f).
  destruct (negb _).
  { intros [= <- <-] [|[|]]; done. }
  unfold mbind at 1, M_bind at 1. rewrite on_fs_open_wb.
  repeat case_bool_decide; try (intros [= <- <-] [|[|]]; done).
  unfold mbind at 1, M_bind at 1. rewrite on_fs_write.
  unfold mbind at 1, M_bind at 1. rewrite on_fs_write.
  unfold mbind at 1, M_bind at 1, get at 1. cbn [self fs].
  unfold mbind at 1, M_bind at 1.
  destruct (stream_and_write _ _ _ _ _ _) as [r1 w1] eqn:Hloop.
  eapply (stream_and_write_partial _ _ _ _ _ _ []) in Hloop as ((es & Hes) & _ & _ & Hr).
  2:{ cbn [fs]. apply (content_at_append _ _ XML_DECL ROOT_OPEN).
      apply (content_at_append _ _ [] XML_DECL).
      unfold content_at. cbn. by rewrite lookup_insert_eq. }
  destruct r1 as [[]|e1].
  2:{ intros [= <- <-] _. eauto. }
  unfold mbind at 1, M_bind at 1. rewrite on_fs_write.
  unfold mbind at 1, M_bind at 1, get at 1.
  unfold mbind at 1, M_bind at 1.
  match goal with |- context [on_fs (iterparse ?p) ?w0] =>
    destruct (on_fs_iterparse p w0) as (r2 & -> & _ & _ & Hraise) end.
  assert (content_at (append_file path ROOT_CLOSE (fs w1)) path = Some (document_of es)) as Hdoc.
  { erewrite content_at_append by done. by rewrite partial_of_close. }
  destruct r2 as [c|e2].
  - unfold_m. cbn. intros [= <- <-]. cbn. eauto.
  - intros [= <- <-] Hsf. rewrite (Hraise e2 eq_refl) in Hsf.
    by destruct Hsf as [|[|]].
Qed.

Lemma append_file_insert p d ds fl c :
  append_file p d {| dirs := ds; files := <[p := OutputFile c]> fl |}
  = {| dirs := ds; files := <[p := OutputFile (c ++ d)]> fl |}.
Proof. unfold append_file. cbn. by rewrite lookup_insert_eq, insert_insert_eq. Qed.

Lemma export_pass_exact dp f k w rt s :
  Str.extension f = "osm" ->
  Path.join dp f ∉ dirs (fs w) ->
  Path.dirname (Path.join dp f) ∈ dirs (fs w) ->
  k <> 0 \/ pending (_context (base (self w))) = [] ->
  root (base (self w)) = Some rt ->
  broken (_context (base (self w))) = false ->
  files (fs w) !! source (base (self w)) = Some (SourceFile s) ->
  Path.join dp f <> source (base (self w)) ->
  export_pass dp f k w =
    (Ok tt,
     let ys := _get_element (tags (self w)) rt (root_current (base (self w)))
                 (pending (_context (base (self w)))) in
     World (reopened s (match ys with [] => rt | _ => clear rt end) (self w))
           {| dirs := dirs (fs w);
              files := <[Path.join dp f := OutputFile (document_of (sample k 0 ys))]>
                         (files (fs w)) |}).
Proof.
  intros Hext Hnd Hdir Hk Hrt Hbrk Hsrc Hne.
  unfold export_pass. set (path := Path.join dp f) in *.
  rewrite Hext, String.eqb_refl. cbn [negb].
  unfold mbind at 1, M_bind at 1. rewrite on_fs_open_wb.
  rewrite bool_decide_eq_false_2, bool_decide_eq_true_2 by done.
  unfold mbind at 1, M_bind at 1. rewrite on_fs_write.
  unfold mbind at 1, M_bind at 1. rewrite on_fs_write.
  unfold mbind at 1, M_bind at 1, get at 1. cbn [self fs].
  unfold mbind at 1, M_bind at 1.
  rewrite (stream_and_write_exact _ _ _ _ _ _ rt) by done.
  rewrite Hbrk. cbn [self fs].
  unfold mbind at 1, M_bind at 1. rewrite on_fs_write. cbn [self fs].
  rewrite !append_file_insert.
  unfold mbind at 1, M_bind at 1, get at 1.
  unfold mbind at 1, M_bind at 1.
  match goal with |- context [on_fs (iterparse ?p) ?w0] =>
    destruct (on_fs_iterparse p w0) as (r2 & -> & _ & Hok & _) end.
  rewrite (Hok s).
  2:{ cbn. destruct w as [[[src ctx r rc] tgs ef ex tv rp] fl]. cbn in *.
      by rewrite lookup_insert_ne. }
  destruct w as [[[src ctx r rc] tgs ef ex tv rp] fl]. cbn in *. subst r.
  unfold_m. cbn. unfold reopened, exhaust, set_base. cbn.
  reflexivity.
Qed.

Lemma for_each_check {S} (l : list string) (allTags : gset string) (E : exn) (s : S) :
  for_each l (fun each =>
    if bool_decide (each ∉ allTags) then raise E else mret tt) s
  = (if decide (Forall (fun t => t ∈ allTags) l) then Ok tt else Raise E, s).
Proof.
  induction l as [|t l IH]; cbn.
  - by rewrite decide_True.
  - unfold mbind, M_bind. case_bool_decide as Ht.
    + cbn. rewrite decide_False; [done|]. by intros [? _]%Forall_cons.
    + cbn. fold (@mbind (M S) _). rewrite IH.
      destruct (decide (Forall _ l)).
      * by rewrite decide_True by by constructor.
      * rewrite decide_False; [done|]. by intros [_ ?]%Forall_cons.
Qed.

Lemma _validate_spec d :
  _validate d =
    if truthy (export d) && bool_decide (export_files d = None)
    then (Raise (ValueError MSG_EXPORT), d)
    else if tagValidation d then
      if broken (_context (base d))
      then (Raise ParseError, set_base (set_context (Cursor [] false) (base d)) d)
      else (if decide (Forall (fun t => t ∈ collect_tags (pending (_context (base d))) ∅) (tags d))
            then Ok tt else Raise (ValueError MSG_TAGS),
            set_base (set_context (Cursor [] false) (base d)) d)
    else (Ok tt, d).
Proof.
  unfold _validate. unfold mbind at 1, M_bind at 1, get at 1.
  unfold mbind at 1, M_bind at 1.
  destruct (truthy (export d)) eqn:Ht; cbn [negb andb].
  - assert (is_None (export d) = false) as -> by (by destruct (export d)).
    cbn [andb orb negb].
    case_bool_decide; [done|]. cbn.
    destruct (tagValidation d); [|done].
    unfold mbind at 1, M_bind at 1. unfold on_base, zoom, scan_tags.
    unfold_m. cbn. destruct (broken _); [done|]. cbn. apply for_each_check.
  - cbn. destruct (tagValidation d); [|done].
    unfold mbind at 1, M_bind at 1. unfold on_base, zoom, scan_tags.
    unfold_m. cbn. destruct (broken _); [done|]. cbn. apply for_each_check.
Qed.

Lemma lower_ascii_same_letter a b :
  Str.lower_ascii b = b -> Str.lower_ascii a = b <-> Str.same_letter a b.
Proof.
  unfold Str.lower_ascii, Str.same_letter. cbv zeta. intros Hb.
  pose proof (nat_ascii_bounded a) as Ha. pose proof (nat_ascii_bounded b) as Hb'.
  assert (~ (65 <= nat_of_ascii b <= 90)%nat) as Hnb.
  { intros [H1 H2].
    rewrite (proj2 (Nat.leb_le _ _) H1), (proj2 (Nat.leb_le _ _) H2) in Hb. cbn in Hb.
    apply (f_equal nat_of_ascii) in Hb.
    rewrite nat_ascii_embedding in Hb by lia. lia. }
  destruct (Nat.leb_spec 65 (nat_of_ascii a)) as [H1|H1];
    destruct (Nat.leb_spec (nat_of_ascii a) 90) as [H2|H2]; cbn [andb].
  - split.
    + intros <-. right. left. rewrite nat_ascii_embedding by lia. lia.
    + intros [->|[[_ Hm]|[Hm _]]]; [lia| |lia].
      by rewrite <- Hm, ascii_nat_embedding.
  - split; [by left|]. intros [->|[[? _]|[? _]]]; [done|lia|lia].
  - split; [by left|]. intros [->|[[? _]|[? _]]]; [done|lia|lia].
  - split; [by left|]. intros [->|[[? _]|[? _]]]; [done|lia|lia].
Qed.

Lemma lower_eq_nocase s : forall t,
  Str.lower t = t -> Str.lower s = t <-> Str.eq_nocase s t.
Proof.
  induction s as [|a s IH]; intros [|b t]; cbn; try done.
  intros [= Hb Ht]. rewrite <- (IH t Ht), <- (lower_ascii_same_letter a b Hb).
  split; [by intros [= -> ->] | by intros [-> ->]].
Qed.

Lemma lower_osm s : String.eqb (Str.lower s) "osm" = true <-> Str.eq_nocase s "osm".
Proof. rewrite String.eqb_eq. by apply lower_eq_nocase. Qed.

Lemma selected_spec tgs ev :
  selected tgs ev <-> ev_kind ev = end_ /\ tag (ev_elem ev) ∈ tgs.
Proof.
  unfold selected. rewrite andb_True, !bool_decide_spec. done.
Qed.

(** A cursor that does not alias [self.root] yields the selected
    elements as the events carry them. *)
Lemma get_element_plain tgs rc evs : forall rt,
  (forall ev, ev ∈ evs -> selected tgs ev -> ev_root ev && rc = false) ->
  _get_element tgs rt rc evs = ev_elem <$> filter (fun ev => selected tgs ev) evs.
Proof.
  induction evs as [|ev evs IH]; intros rt Hall; [done|].
  cbn [_get_element]. rewrite filter_cons.
  destruct (selected tgs ev) eqn:Hsel.
  - rewrite decide_True by exact I. cbn.
    rewrite (Hall ev) by (rewrite ?Hsel; done || by left).
    f_equal. apply IH. intros ev' ? ?. apply Hall; [by right|done].
  - rewrite decide_False by (intros H; exact H).
    apply IH. intros ev' ? ?. apply Hall; [by right|done].
Qed.

Lemma events_of_inner e : forall ev, ev ∈ events_of false e -> ev_root ev = false.
Proof.
  induction e as [tg at_ tx ch tl IH] using Element_ind. intros ev.
  cbn [events_of]. rewrite elem_of_cons, elem_of_app, list_elem_of_singleton.
  intros [->|[Hin| ->]]; [done| |done].
  apply list_elem_of_In, in_flat_map in Hin as (c & Hc & Hev).
  rewrite Forall_forall in IH.
  apply (IH c (proj2 (list_elem_of_In _ _) Hc)), list_elem_of_In, Hev.
Qed.

Lemma events_of_root e b ev :
  ev ∈ events_of b e -> ev_root ev = true -> ev_elem ev = e.
Proof.
  destruct e as [tg at_ tx ch tl]. cbn [events_of].
  rewrite elem_of_cons, elem_of_app, list_elem_of_singleton.
  intros [->|[Hin| ->]] Hroot; [done| |done].
  apply list_elem_of_In, in_flat_map in Hin as (c & Hc & Hev).
  apply list_elem_of_In, events_of_inner in Hev. congruence.
Qed.

Lemma filter_selected_events tgs d b :
  ev_elem <$> filter (fun ev => selected tgs ev) (events_of b d) = filtered tgs d.
Proof.
  unfold filtered. rewrite <- (end_events_of (fun e => tag e ∈ tgs) d b).
  f_equal. apply list_filter_iff. intros ev. apply selected_spec.
Qed.

(** After a reopen the pass yields the filtered elements of the document. *)
Lemma get_element_reopened tgs rt d :
  _get_element tgs rt false (events_of true d) = filtered tgs d.
Proof.
  rewrite get_element_plain; [apply filter_selected_events|].
  intros. apply andb_false_r.
Qed.

(** So does the first pass, when the root's own tag is not asked for. *)
Lemma get_element_first tgs rt rc d rest :
  events_of true d = Ev start d true :: rest ->
  tag d ∉ tgs ->
  _get_element tgs rt rc rest = filtered tgs d.
Proof.
  intros Hev Hroot. rewrite <- (filter_selected_events tgs d true), Hev.
  rewrite filter_cons_False by (by intros [? _]%selected_spec).
  apply get_element_plain. intros ev Hin [_ Hsel]%selected_spec.
  destruct (ev_root ev) eqn:Hr; [|done].
  rewrite (events_of_root d true ev) in Hsel; [done| |done].
  rewrite Hev. by right.
Qed.

Lemma events_of_cons d b : events_of b d = Ev start d b :: List.tl (events_of b d).
Proof. by destruct d. Qed.

Lemma DataFramerXML_init_spec RES osmFile tgs kw fs0 d :
  Str.lower (Str.extension osmFile) = "osm" ->
  files fs0 !! Path.join RES osmFile = Some (SourceFile {| doc := d; cut := None |}) ->
  Str.lower (tag d) = "osm" ->
  DataFramerXML_init RES osmFile tgs kw fs0 =
    match _validate
            {| base := {| source := Path.join RES osmFile;
                          _context := Cursor (List.tl (events_of true d)) false;
                          root := Some d; root_current := true |};
               tags := tgs; export_files := kw_files kw; export := kw_export kw;
               tagValidation := default false (kw_tagValidation kw);
               rootPath := default "." (kw_root kw) |} with
    | (Ok _, self) => (Ok self, fs0)
    | (Raise e, _) => (Raise e, fs0)
    end.
Proof.
  intros Hext Hsrc Hroot.
  unfold DataFramerXML_init, ParserXML_init. rewrite Hext, String.eqb_refl. cbn [negb].
  unfold iterparse, _check_root, next_event, next. unfold_m.
  rewrite Hsrc. unfold open_cursor. cbn [cut doc pending].
  rewrite (events_of_cons d true). cbn [List.tl ev_elem ev_root _context pending broken].
  rewrite Hroot, String.eqb_refl. cbn [negb].
  by destruct (_validate _) as [[[]|e] self].
Qed.

(** ** Names, options and the constructor *)

Lemma split_nonempty c s : Str.split c s <> [].
Proof.
  destruct s as [|a s]; cbn [Str.split]; [done|].
  destruct (Ascii.eqb a c); [done|]. by destruct (Str.split c s).
Qed.

(** [(s + c + t).split(c) == s.split(c) + t.split(c)] *)
Lemma split_append c s t :
  Str.split c (s +:+ String c t) = Str.split c s ++ Str.split c t.
Proof.
  induction s as [|a s IH]; simpl.
  - by rewrite Ascii.eqb_refl.
  - rewrite IH. destruct (Ascii.eqb a c); [done|].
    pose proof (split_nonempty c s). by destruct (Str.split c s).
Qed.

Lemma last_app_nonempty {A} (l l' : list A) d : l' <> [] -> List.last (l ++ l') d = List.last l' d.
Proof.
  intros Hl'. induction l as [|x l IH]; [done|].
  cbn [app]. rewrite <- IH. cbn. destruct (l ++ l') eqn:E; [|done].
  by apply app_eq_nil in E as [_ ?].
Qed.

Lemma extension_append stem ext :
  Str.extension (stem +:+ String "."%char ext) = Str.extension ext.
Proof.
  unfold Str.extension. rewrite split_append.
  apply last_app_nonempty, split_nonempty.
Qed.

Lemma export_consistent_spec v (fl : option (list (string * Z))) :
  truthy v && bool_decide (fl = None) = false <-> export_consistent v fl.
Proof.
  unfold export_consistent. destruct (truthy v); cbn; [|tauto].
  case_bool_decide; split; try tauto; done.
Qed.

(** What the constructor establishes when it returns. *)
Lemma DataFramerXML_init_inv RES osmFile tgs kw fs0 s obj fs1 :
  files fs0 !! Path.join RES osmFile = Some (SourceFile s) ->
  DataFramerXML_init RES osmFile tgs kw fs0 = (Ok obj, fs1) ->
  fs1 = fs0
  /\ Str.lower (Str.extension osmFile) = "osm"
  /\ Str.lower (tag (doc s)) = "osm"
  /\ cut s <> Some 0%nat.
Proof.
  intros Hsrc. unfold DataFramerXML_init, ParserXML_init.
  destruct (String.eqb_spec (Str.lower (Str.extension osmFile)) "osm") as [Hext|]; [|done].
  cbn [negb]. unfold iterparse, _check_root, next_event, next. unfold_m.
  rewrite Hsrc. unfold open_cursor.
  destruct (cut s) as [[|n]|]; cbn [pending broken _context firstn take]; [done| |].
  all: rewrite (events_of_cons (doc s) true); cbn [take List.tl ev_elem].
  all: destruct (String.eqb_spec (Str.lower (tag (doc s))) "osm") as [Hroot|]; [|done].
  all: cbn [negb]; destruct (_validate _) as [[[]|e] self']; [|done].
  all: by intros [= <- <-].
Qed.

(** A stride map is never turned down for want of an export target:
    the cross-check is skipped whenever [export] is not truthy. *)
Lemma _validate_without_target d :
  truthy (export d) = false -> tagValidation d = false -> _validate d = (Ok tt, d).
Proof. intros Ht Hv. rewrite _validate_spec, Ht, Hv. done. Qed.

(** The literal writes, byte for byte. *)
Lemma render_literals :
  render XML_DECL
    = "<?xml version=" +:+ QUOTE +:+ "1.0" +:+ QUOTE +:+ " encoding=" +:+ QUOTE
      +:+ "UTF-8" +:+ QUOTE +:+ "?>" +:+ LF
  /\ render ROOT_OPEN = "<osm>" +:+ LF +:+ "  "
  /\ render ROOT_CLOSE = "</osm>".
Proof. repeat split; reflexivity. Qed.

(** ** Passes from a reopened cursor *)

Lemma content_at_insert ds fl p c :
  content_at {| dirs := ds; files := <[p := OutputFile c]> fl |} p = Some c.
Proof. unfold content_at. cbn. by rewrite lookup_insert_eq. Qed.

(** From a freshly reopened cursor every turn writes the sample of the
    filtered elements of the document, and leaves a freshly reopened
    cursor behind. *)
Lemma export_passes_fresh dp s : forall items w,
  fresh s w ->
  Forall (dest_ok dp w) items ->
  Forall (fun fk => snd fk <> 0) items ->
  NoDup (dest_path dp <$> items) ->
  exists w',
    for_each items (fun '(export_file, factor) => export_pass dp export_file factor) w
      = (Ok tt, w')
    /\ fresh s w'
    /\ tags (self w') = tags (self w)
    /\ (forall f k, (f, k) ∈ items ->
          content_at (fs w') (Path.join dp f)
          = Some (document_of (sample k 0 (filtered (tags (self w)) (doc s)))))
    /\ (forall p, p ∉ dest_path dp <$> items -> files (fs w') !! p = files (fs w) !! p).
Proof.
  induction items as [|[f k] items IH]; intros w Hfresh Hok Hk Hnd.
  - exists w. repeat split; try done; try apply Hfresh. intros f k Hin. by apply elem_of_nil in Hin.
  - destruct Hfresh as (Hcut & Hctx & Hrc & [rt Hrt] & Hsrc).
    apply Forall_cons in Hok as [(Hext & Hnotdir & Hdir & Hne) Hok].
    apply Forall_cons in Hk as [Hk0 Hk]. cbn in Hk0, Hext, Hnotdir, Hdir, Hne.
    rewrite fmap_cons in Hnd. apply NoDup_cons in Hnd as [Hfirst Hnd].
    cbn [for_each]. unfold mbind at 1, M_bind at 1.
    assert (broken (_context (base (self w))) = false) as Hbrk
      by (rewrite Hctx; unfold open_cursor; by rewrite Hcut).
    rewrite (export_pass_exact dp f k w rt s Hext Hnotdir Hdir (or_introl Hk0) Hrt Hbrk Hsrc Hne).
    rewrite Hctx, Hrc.
    replace (pending (open_cursor s)) with (events_of true (doc s))
      by (unfold open_cursor; by rewrite Hcut).
    rewrite get_element_reopened.
    set (w1 := World _ _).
    destruct (IH w1) as (w' & Hrun & Hfresh' & Htags & Hcontent & Hother); [| | done | done |].
    + repeat split; try done. cbn. destruct w as [[[src ctx r rc] tgs ef ex tv rp] fl].
      cbn in *. by rewrite lookup_insert_ne.
    + eapply Forall_impl; [exact Hok|]. intros fk (? & ? & ? & ?).
      repeat split; try done. all: by destruct w as [[[src ctx r rc] tgs ef ex tv rp] fl].
    + exists w'. split; [done|]. split; [done|].
      assert (tags (self w1) = tags (self w)) as Htw
        by (by destruct w as [[[src ctx r rc] tgs ef ex tv rp] fl]).
      split; [congruence|]. split.
      * intros f' k' [[= -> ->]|Hin]%elem_of_cons.
        -- unfold content_at. rewrite (Hother (Path.join dp f) Hfirst).
           apply content_at_insert.
        -- rewrite <- Htw. by apply Hcontent.
      * intros p Hp. rewrite fmap_cons in Hp. apply not_elem_of_cons in Hp as [Hp1 Hp2].
        rewrite (Hother p Hp2). cbn. by rewrite lookup_insert_ne.
Qed.

(** Without tag validation the first turn after construction writes the
    sample of the filtered elements (the root's own tag not being asked
    for), and leaves a reopened cursor. *)
Lemma export_pass_after_construction RES osmFile tgs kw fs0 d obj dp f k :
  files fs0 !! Path.join RES osmFile = Some (SourceFile {| doc := d; cut := None |}) ->
  DataFramerXML_init RES osmFile tgs kw fs0 = (Ok obj, fs0) ->
  default false (kw_tagValidation kw) = false ->
  tag d ∉ tgs ->
  k <> 0 ->
  dest_ok dp (World obj fs0) (f, k) ->
  exists w',
    export_pass dp f k (World obj fs0) = (Ok tt, w')
    /\ content_at (fs w') (Path.join dp f)
       = Some (document_of (sample k 0 (filtered tgs d)))
    /\ fresh {| doc := d; cut := None |} w'.
Proof.
  intros Hsrc Hinit Htv Hroot Hk (Hext1 & Hnotdir1 & Hdir1 & Hne1).
  destruct (DataFramerXML_init_inv _ _ _ _ _ _ _ _ Hsrc Hinit) as (_ & Hext & Hosm & _).
  cbn [doc] in Hosm.
  rewrite (DataFramerXML_init_spec _ _ _ _ _ d Hext Hsrc Hosm), _validate_spec in Hinit.
  cbn [export export_files tagValidation base _context broken pending tags] in Hinit.
  rewrite Htv in Hinit.
  destruct (truthy _ && bool_decide _); [done|].
  injection Hinit as <-. cbn in Hext1, Hnotdir1, Hdir1, Hne1.
  rewrite (export_pass_exact dp f k _ d {| doc := d; cut := None |});
    [|done|done|done|by left|done|done|done|done].
  cbn [self fs tags base _context pending root_current].
  rewrite (get_element_first tgs d true d _ (events_of_cons d true) Hroot).
  eexists. split; [done|]. split; [apply content_at_insert|].
  repeat split; try done. eauto. cbn. by rewrite lookup_insert_ne.
Qed.

(** The sampling law of that first turn, for a stride of at least 1:
    [ceil (M / k)] elements are written, [M] the number of filtered
    elements; the [j]-th of them, counting from 0, is the filtered
    element at index [j * k]; with stride 1 they are the filtered
    elements, all of them, in document order. *)
Corollary sampling_law_without_tag_validation RES osmFile tgs kw fs0 d obj dp f k :
  files fs0 !! Path.join RES osmFile = Some (SourceFile {| doc := d; cut := None |}) ->
  DataFramerXML_init RES osmFile tgs kw fs0 = (Ok obj, fs0) ->
  default false (kw_tagValidation kw) = false ->
  tag d ∉ tgs ->
  1 <= k ->
  dest_ok dp (World obj fs0) (f, k) ->
  exists w' written,
    export_pass dp f k (World obj fs0) = (Ok tt, w')
    /\ content_at (fs w') (Path.join dp f) = Some (document_of written)
    /\ Z.of_nat (length written) = ceil_div (Z.of_nat (length (filtered tgs d))) k
    /\ (forall j, written !! j = filtered tgs d !! (j * Z.to_nat k)%nat)
    /\ (k = 1 -> written = filtered tgs d).
Proof.
  intros Hsrc Hinit Htv Hroot Hk Hok.
  destruct (export_pass_after_construction _ _ _ _ _ _ _ dp f k Hsrc Hinit Htv Hroot)
    as (w' & Hrun & Hcontent & _); [lia|done|].
  exists w', (sample k 0 (filtered tgs d)). split; [done|]. split; [done|].
  split; [by apply sample_length|]. split.
  - intros j. by apply sample_lookup.
  - intros ->. apply sample_one.
Qed.

(** From a reopened cursor, the same turn run twice returns normally
    both times and leaves the same file both times. *)
Lemma export_pass_twice_fresh dp f k s w :
  fresh s w ->
  dest_ok dp w (f, k) ->
  k <> 0 ->
  exists w1 w2,
    export_pass dp f k w = (Ok tt, w1)
    /\ export_pass dp f k w1 = (Ok tt, w2)
    /\ content_at (fs w1) (Path.join dp f) = content_at (fs w2) (Path.join dp f)
    /\ content_at (fs w2) (Path.join dp f)
       = Some (document_of (sample k 0 (filtered (tags (self w)) (doc s)))).
Proof.
  intros Hfresh Hok Hk.
  assert (forall w0, fresh s w0 -> dest_ok dp w0 (f, k) ->
    exists w', export_pass dp f k w0 = (Ok tt, w') /\ fresh s w'
      /\ tags (self w') = tags (self w0) /\ dirs (fs w') = dirs (fs w0)
      /\ source (base (self w')) = source (base (self w0))
      /\ content_at (fs w') (Path.join dp f)
         = Some (document_of (sample k 0 (filtered (tags (self w0)) (doc s))))) as Hone.
  { intros w0 (Hcut & Hctx & Hrc & [rt Hrt] & Hsrc) (Hext & Hnotdir & Hdir & Hne).
    cbn in Hext, Hnotdir, Hdir, Hne.
    assert (broken (_context (base (self w0))) = false) as Hbrk
      by (rewrite Hctx; unfold open_cursor; by rewrite Hcut).
    rewrite (export_pass_exact dp f k w0 rt s Hext Hnotdir Hdir (or_introl Hk) Hrt Hbrk Hsrc Hne).
    rewrite Hctx, Hrc.
    replace (pending (open_cursor s)) with (events_of true (doc s))
      by (unfold open_cursor; by rewrite Hcut).
    rewrite get_element_reopened. eexists. split; [done|].
    destruct w0 as [[[src ctx r rc] tgs ef ex tv rp] fl]. cbn in *.
    unfold fresh, reopened, set_base. cbn.
    repeat split; try done; eauto.
    all: first [by rewrite lookup_insert_ne | apply content_at_insert]. }
  destruct (Hone w Hfresh Hok) as (w1 & Hrun1 & Hfresh1 & Htags1 & Hdirs1 & Hsrc1 & Hc1).
  destruct (Hone w1 Hfresh1) as (w2 & Hrun2 & _ & _ & _ & _ & Hc2).
  { destruct Hok as (? & ? & ? & ?). repeat split; cbn in *; congruence. }
  exists w1, w2. rewrite Htags1 in Hc2. repeat split; congruence.
Qed.

(** ** The path check *)

(** The check [export_dataset] makes itself is on the exporter's root
    path: when that is missing the call raises at once, wherever the
    files were to go. *)
Lemma export_dataset_missing_root_path dp w :
  path_exists (fs w) (rootPath (self w)) = false ->
  export_dataset dp w = (Raise (IOError MSG_PATH), w).
Proof. intros Hno. unfold export_dataset. unfold_m. by rewrite Hno. Qed.

(** The extension of a destination is looked at before the file is
    opened: a name without it stops the call with a format error even
    when the directory is missing. *)
Lemma export_dataset_checks_extension_first dp w f k rest :
  path_exists (fs w) (rootPath (self w)) = true ->
  export_files (self w) = Some ((f, k) :: rest) ->
  Str.extension f <> "osm" ->
  export_dataset dp w = (Raise (ValueError MSG_EXPORT_TYPE), w).
Proof.
  intros Hyes Hfiles Hext. unfold export_dataset.
  unfold mbind at 1, M_bind at 1, get at 1. rewrite Hyes, Hfiles. cbn [negb for_each].
  unfold mbind at 1, M_bind at 1. unfold export_pass.
  by destruct (String.eqb_spec (Str.extension f) "osm").
Qed.

(** * The claims *)

(** C1, evaluated where the code departs from it.  The map has five
    [node] elements, so with the filter [node] and stride 1 the claim
    has five elements written, all of them.  With [tagValidation=True]
    the export of the one destination returns normally and the file
    holds no element at all; without it the same export writes the five
    nodes. *)
Theorem C1_first_export_after_tag_validation_is_empty :
  filtered ["node"] Sample.map_doc
    = [Sample.node "1"; Sample.node "2"; Sample.node "3"; Sample.node "4"; Sample.node "5"]
  /\ ceil_div 5 1 = 5
  /\ Sample.exported "map.osm" ["node"] (Sample.validated "out.osm" 1) "/res" "/res/out.osm"
     = Some (Ok tt, Some (document_of []))
  /\ Sample.exported "map.osm" ["node"] (Sample.only_files "out.osm" 1) "/res" "/res/out.osm"
     = Some (Ok tt, Some (document_of (filtered ["node"] Sample.map_doc))).
Proof. repeat split; vm_compute; reflexivity. Qed.

(** C2, evaluated where the code departs from it.  A stride map
    without an export target is accepted: the constructor returns an
    exporter.  The other direction is rejected. *)
Theorem C2_stride_map_without_target_is_accepted :
  (exists obj, DataFramerXML_init "/res" "map.osm" ["node"]
                 (Sample.only_files "out.osm" 10) Sample.env = (Ok obj, Sample.env))
  /\ DataFramerXML_init "/res" "map.osm" ["node"] Sample.only_export Sample.env
     = (Raise (ValueError MSG_EXPORT), Sample.env).
Proof. split; [eexists|]; vm_compute; reflexivity. Qed.

(** C3.  With tag validation asked for, on a well-formed document that
    passes the extension and root checks: if some tag of the filter
    does not occur in the document the constructor raises a validation
    error (the [ValueError] of the tag check, unless the option
    cross-check has raised its own first) and the file system is as it
    was, no output file having been opened; if every tag of the filter
    occurs, the [ValueError] of the tag check is not raised, and the
    constructor returns an exporter when the options are consistent. *)
Theorem C3_tag_validation_rejects_absent_tags
    (RES osmFile : string) (tgs : list string) (kw : kwargs) (fs0 : FS) (d : Element) :
  Str.lower (Str.extension osmFile) = "osm" ->
  files fs0 !! Path.join RES osmFile = Some (SourceFile {| doc := d; cut := None |}) ->
  Str.lower (tag d) = "osm" ->
  kw_tagValidation kw = Some true ->
  ((exists t, t ∈ tgs /\ t ∉ tag <$> elements d) ->
     exists e,
       DataFramerXML_init RES osmFile tgs kw fs0 = (Raise e, fs0)
       /\ classify e = ValidationError
       /\ (export_consistent (kw_export kw) (kw_files kw) -> e = ValueError MSG_TAGS))
  /\ ((forall t, t ∈ tgs -> t ∈ tag <$> elements d) ->
       (forall fs1, DataFramerXML_init RES osmFile tgs kw fs0 <> (Raise (ValueError MSG_TAGS), fs1))
       /\ (export_consistent (kw_export kw) (kw_files kw) ->
           exists obj, DataFramerXML_init RES osmFile tgs kw fs0 = (Ok obj, fs0))).
Proof.
  intros Hext Hsrc Hroot Htv.
  rewrite (DataFramerXML_init_spec _ _ _ _ _ d Hext Hsrc Hroot), _validate_spec.
  cbn [export export_files tagValidation base _context broken pending tags].
  rewrite Htv. cbn [default].
  pose proof (export_consistent_spec (kw_export kw) (kw_files kw)) as Hcons.
  assert (Forall (fun t => t ∈ collect_tags (List.tl (events_of true d)) ∅) tgs
          <-> forall t, t ∈ tgs -> t ∈ tag <$> elements d) as Hall.
  { rewrite Forall_forall. apply forall_proper. intros t.
    by rewrite (collect_tags_document d _ t (events_of_cons d true)). }
  split.
  - intros (t & Hin & Hout).
    destruct (truthy _ && bool_decide _).
    + exists (ValueError MSG_EXPORT). split; [done|]. split; [done|].
      intros ?%Hcons. done.
    + rewrite decide_False by (rewrite Hall; intros H; apply Hout, H, Hin).
      exists (ValueError MSG_TAGS). done.
  - intros Hpresent. rewrite decide_True by (by apply Hall).
    destruct (truthy _ && bool_decide _).
    + split; [done|]. intros ?%Hcons. done.
    + split; [done|]. eauto.
Qed.

Lemma C3_tag_validation_rejects_absent_tags_witness :
  exists e,
    DataFramerXML_init "/res" "map.osm" ["node"; "relation"]
      (Sample.validated "out.osm" 1) Sample.env = (Raise e, Sample.env)
    /\ classify e = ValidationError
    /\ (export_consistent PyNone (Some [("out.osm", 1)]) -> e = ValueError MSG_TAGS).
Proof.
  refine (proj1 (C3_tag_validation_rejects_absent_tags "/res" "map.osm" ["node"; "relation"]
            (Sample.validated "out.osm" 1) Sample.env Sample.map_doc _ _ _ _) _).
  - vm_compute. reflexivity.
  - vm_compute. reflexivity.
  - vm_compute. reflexivity.
  - reflexivity.
  - exists "relation". split; [set_solver|]. vm_compute.
    intros H. repeat (apply elem_of_cons in H as [H|H]; [discriminate|]).
    by apply elem_of_nil in H.
Defined.

(** C4.  When the constructor has validated the tags and returned, the
    cursor of the exporter is exhausted, and [export_dataset] does not
    reopen it before the first destination: whatever the document, the
    filter and the strides, the first file holds the declaration, the
    opening and the closing root tag and no element.  Every later
    destination of the same call is written from a cursor reopened at
    the end of the turn before, and holds the sample of the filtered
    elements for its stride. *)
Theorem C4_first_export_after_tag_validation
    (RES osmFile : string) (tgs : list string) (kw : kwargs) (fs0 : FS) (d : Element)
    (obj : DataFramerXML) (dp f1 : string) (k1 : Z) (later : list (string * Z)) :
  files fs0 !! Path.join RES osmFile = Some (SourceFile {| doc := d; cut := None |}) ->
  kw_tagValidation kw = Some true ->
  kw_files kw = Some ((f1, k1) :: later) ->
  DataFramerXML_init RES osmFile tgs kw fs0 = (Ok obj, fs0) ->
  path_exists fs0 (rootPath obj) = true ->
  Forall (dest_ok dp (World obj fs0)) ((f1, k1) :: later) ->
  Forall (fun fk => snd fk <> 0) later ->
  NoDup (dest_path dp <$> (f1, k1) :: later) ->
  _context (base obj) = Cursor [] false
  /\ exists w',
       export_dataset dp (World obj fs0) = (Ok tt, w')
       /\ content_at (fs w') (Path.join dp f1) = Some (XML_DECL ++ ROOT_OPEN ++ ROOT_CLOSE)
       /\ forall f k, (f, k) ∈ later ->
            content_at (fs w') (Path.join dp f)
            = Some (document_of (sample k 0 (filtered tgs d))).
Proof.
  intros Hsrc Htv Hfiles Hinit Hroot Hok Hk Hnd.
  destruct (DataFramerXML_init_inv _ _ _ _ _ _ _ _ Hsrc Hinit) as (_ & Hext & Hosm & _).
  cbn [doc] in Hosm.
  rewrite (DataFramerXML_init_spec _ _ _ _ _ d Hext Hsrc Hosm), _validate_spec in Hinit.
  cbn [export export_files tagValidation base _context broken pending tags] in Hinit.
  rewrite Htv in Hinit. cbn [default] in Hinit.
  destruct (truthy _ && bool_decide _); [done|].
  destruct (decide (Forall _ tgs)) as [_|]; [|done].
  injection Hinit as <-. split; [done|].
  apply Forall_cons in Hok as [(Hext1 & Hnotdir1 & Hdir1 & Hne1) Hok].
  rewrite fmap_cons in Hnd. apply NoDup_cons in Hnd as [Hfirst Hnd].
  unfold export_dataset. unfold mbind at 1, M_bind at 1, get at 1.
  cbn [self fs] in *. rewrite Hroot. cbn [negb export_files set_base]. rewrite Hfiles.
  cbn [for_each]. unfold mbind at 1, M_bind at 1.
  cbn in Hext1, Hnotdir1, Hdir1, Hne1.
  rewrite (export_pass_exact dp f1 k1 _ d {| doc := d; cut := None |});
    [|done|done|done|by right|done|done|done|done].
  cbn [self fs tags base set_base set_context _context pending root_current _get_element sample].
  set (w1 := World _ _).
  destruct (export_passes_fresh dp {| doc := d; cut := None |} later w1)
    as (w' & Hrun & _ & _ & Hcontent & Hother); [| | done | done |].
  - repeat split; try done. eauto. cbn. by rewrite lookup_insert_ne.
  - eapply Forall_impl; [exact Hok|]. by intros fk (? & ? & ? & ?).
  - exists w'. split; [done|]. split.
    + unfold content_at. rewrite (Hother (Path.join dp f1) Hfirst). apply content_at_insert.
    + intros f k Hin. by apply Hcontent.
Qed.

Lemma C4_first_export_after_tag_validation_witness :
  _context (base (Sample.validated_exporter [("a.osm", 3); ("b.osm", 2)])) = Cursor [] false
  /\ exists w',
       export_dataset "/res"
         (World (Sample.validated_exporter [("a.osm", 3); ("b.osm", 2)]) Sample.env) = (Ok tt, w')
       /\ content_at (fs w') (Path.join "/res" "a.osm") = Some (XML_DECL ++ ROOT_OPEN ++ ROOT_CLOSE)
       /\ forall f k, (f, k) ∈ [("b.osm", 2)] ->
            content_at (fs w') (Path.join "/res" f)
            = Some (document_of (sample k 0 (filtered ["node"] Sample.map_doc))).
Proof.
  apply (C4_first_export_after_tag_validation "/res" "map.osm" ["node"]
           {| kw_files := Some [("a.osm", 3); ("b.osm", 2)]; kw_export := PyNone;
              kw_tagValidation := Some true; kw_root := None |}
           Sample.env Sample.map_doc
           (Sample.validated_exporter [("a.osm", 3); ("b.osm", 2)])
           "/res" "a.osm" 3 [("b.osm", 2)]).
  - vm_compute. reflexivity.
  - reflexivity.
  - reflexivity.
  - vm_compute. reflexivity.
  - vm_compute. reflexivity.
  - apply Forall_cons; split; [|apply Forall_cons; split; [|by apply Forall_nil]].
    + repeat split; vm_compute; (reflexivity || discriminate).
    + repeat split; vm_compute; (reflexivity || discriminate).
  - apply Forall_cons; split; [discriminate|by apply Forall_nil].
  - apply (bool_decide_unpack (NoDup _)). vm_compute. exact I.
Defined.

(** C5.  [_check_root] takes exactly the first event off the cursor
    and binds [root] to its element; it returns normally if and only if
    that element's tag equals [osm] up to letter case, and raises the
    [ValueError] of the root check, a format error, otherwise. *)
Theorem C5_check_root_accepts_osm_in_any_case (p : ParserXML) (ev : event) (rest : list event) :
  pending (_context p) = ev :: rest ->
  exists r p',
    _check_root p = (r, p')
    /\ _context p' = Cursor rest (broken (_context p))
    /\ root p' = Some (ev_elem ev)
    /\ (r = Ok tt <-> Str.eq_nocase (tag (ev_elem ev)) "osm")
    /\ (~ Str.eq_nocase (tag (ev_elem ev)) "osm" ->
        r = Raise (ValueError MSG_ROOT) /\ classify (ValueError MSG_ROOT) = FormatError).
Proof.
  intros Hp. unfold _check_root, next_event, next. unfold_m. rewrite Hp.
  cbn [set_context _context root ev_elem].
  pose proof (lower_osm (tag (ev_elem ev))) as Hl.
  destruct (String.eqb _ "osm"); cbn [negb]; eexists _, _; (split; [reflexivity|]); cbn.
  - repeat split; tauto.
  - repeat split; try done. intros H. apply Hl in H. discriminate.
Qed.

Lemma C5_check_root_accepts_osm_in_any_case_witness :
  exists r p',
    _check_root {| source := "/res/map.osm";
                   _context := Cursor (events_of true Sample.capital_doc) false;
                   root := None; root_current := false |} = (r, p')
    /\ _context p' = Cursor (List.tl (events_of true Sample.capital_doc)) false
    /\ root p' = Some Sample.capital_doc
    /\ (r = Ok tt <-> Str.eq_nocase "OSM" "osm")
    /\ (~ Str.eq_nocase "OSM" "osm" ->
        r = Raise (ValueError MSG_ROOT) /\ classify (ValueError MSG_ROOT) = FormatError).
Proof.
  apply (C5_check_root_accepts_osm_in_any_case
           {| source := "/res/map.osm";
              _context := Cursor (events_of true Sample.capital_doc) false;
              root := None; root_current := false |}
           (Ev start Sample.capital_doc true) (List.tl (events_of true Sample.capital_doc))).
  reflexivity.
Defined.

(** C6.  [export_dataset] raises a path error and leaves the exporter
    and the file system as they were, no file being created, in both of
    these cases: when the exporter's root path does not exist (the
    [IOError] of the program's own check, which comes before anything
    else), and when the directory that the first destination is to be
    written into does not exist (that [IOError] again if the root path
    is missing too, the error of [open] otherwise: the program checks
    its root path, not the directory it writes into).  The destination
    is the first of a non-empty stride map and carries the extension
    [osm]. *)
Theorem C6_missing_directory_is_a_path_error (dp : string) (w : world) :
  (path_exists (fs w) (rootPath (self w)) = false ->
     export_dataset dp w = (Raise (IOError MSG_PATH), w)
     /\ classify (IOError MSG_PATH) = PathError)
  /\ (forall f k rest,
        export_files (self w) = Some ((f, k) :: rest) ->
        Str.extension f = "osm" ->
        Path.dirname (Path.join dp f) ∉ dirs (fs w) ->
        exists e,
          export_dataset dp w = (Raise e, w) /\ classify e = PathError).
Proof.
  split.
  - intros Hno. split; [|done]. by apply export_dataset_missing_root_path.
  - intros f k rest Hfiles Hext Hdir.
    destruct (path_exists (fs w) (rootPath (self w))) eqn:Hroot.
    2:{ exists (IOError MSG_PATH). split; [|done].
        by apply export_dataset_missing_root_path. }
    unfold export_dataset. unfold mbind at 1, M_bind at 1, get at 1.
    rewrite Hroot, Hfiles. cbn [negb for_each].
    unfold mbind at 1, M_bind at 1. unfold export_pass.
    rewrite Hext, String.eqb_refl. cbn [negb].
    unfold mbind at 1, M_bind at 1. rewrite on_fs_open_wb.
    rewrite (bool_decide_eq_false_2 (Path.dirname _ ∈ _)) by done.
    case_bool_decide; eexists; split; done.
Qed.

Lemma C6_missing_directory_is_a_path_error_witness :
  (export_dataset "/res"
     (World {| base := base (Sample.map_exporter [] None);
               tags := ["node"]; export_files := Some [("out.osm", 2)]; export := PyNone;
               tagValidation := false; rootPath := "/elsewhere" |} Sample.env)
   = (Raise (IOError MSG_PATH),
      World {| base := base (Sample.map_exporter [] None);
               tags := ["node"]; export_files := Some [("out.osm", 2)]; export := PyNone;
               tagValidation := false; rootPath := "/elsewhere" |} Sample.env)
   /\ classify (IOError MSG_PATH) = PathError)
  /\ exists e,
       export_dataset "/elsewhere"
         (World (Sample.map_exporter ["node"] (Some [("out.osm", 2)])) Sample.env)
       = (Raise e, World (Sample.map_exporter ["node"] (Some [("out.osm", 2)])) Sample.env)
       /\ classify e = PathError.
Proof.
  split.
  - apply C6_missing_directory_is_a_path_error. vm_compute. reflexivity.
  - apply (proj2 (C6_missing_directory_is_a_path_error "/elsewhere" _) "out.osm" 2 []).
    + reflexivity.
    + vm_compute. reflexivity.
    + vm_compute. discriminate.
Defined.

(** C7.  A turn of the export loop that returns normally found no
    parse error behind the cursor, and its file is a whole document,
    closing root tag last.  A turn that is stopped by a failure from
    inside the loop over the elements (the cursor, the stride test or
    the clearing of the root) leaves the declaration, the opening root
    tag and the elements written so far, and nothing after them: the
    closing root tag has not been written, and the file does not read
    back as a document. *)
Theorem C7_closing_tag_only_after_exhaustion
    (dp f : string) (k : Z) (w w' : world) (r : result unit) :
  export_pass dp f k w = (r, w') ->
  match r with
  | Ok _ =>
      broken (_context (base (self w))) = false /\
      exists es, content_at (fs w') (Path.join dp f)
                 = Some (XML_DECL ++ ROOT_OPEN ++ flat_map tostring es ++ ROOT_CLOSE)
  | Raise e =>
      streaming_failure e ->
      exists es, content_at (fs w') (Path.join dp f)
                 = Some (XML_DECL ++ ROOT_OPEN ++ flat_map tostring es)
                 /\ parse_document (XML_DECL ++ ROOT_OPEN ++ flat_map tostring es) = None
  end.
Proof.
  intros Hrun. apply export_pass_outcome in Hrun. destruct r as [[]|e]; [done|].
  intros Hsf. destruct (Hrun Hsf) as (es & Hes). exists es. split; [done|].
  apply parse_partial_of.
Qed.

Lemma C7_closing_tag_only_after_exhaustion_witness :
  exists es,
    content_at
      (fs (snd (export_pass "/res" "out.osm" 1
                  (World (Sample.exporter Sample.map_doc "/res/torn.osm"
                            (Cursor (take 4 (List.tl (events_of true Sample.map_doc))) true)
                            ["node"] (Some [("out.osm", 1)]))
                         Sample.env))))
      (Path.join "/res" "out.osm")
    = Some (XML_DECL ++ ROOT_OPEN ++ flat_map tostring es)
    /\ parse_document (XML_DECL ++ ROOT_OPEN ++ flat_map tostring es) = None.
Proof.
  refine (C7_closing_tag_only_after_exhaustion "/res" "out.osm" 1
            (World (Sample.exporter Sample.map_doc "/res/torn.osm"
                      (Cursor (take 4 (List.tl (events_of true Sample.map_doc))) true)
                      ["node"] (Some [("out.osm", 1)]))
                   Sample.env)
            _ (Raise ParseError) _ _).
  - vm_compute. reflexivity.
  - left. reflexivity.
Defined.

(** C8, evaluated where the code departs from it.  With
    [tagValidation=True], two runs of the same single-destination export
    on one exporter both return normally, and leave different files:
    the first holds no element, the second the five nodes. *)
Theorem C8_second_run_differs_after_tag_validation :
  Sample.exported_twice "map.osm" ["node"] (Sample.validated "out.osm" 1) "/res" "/res/out.osm"
  = Some ((Ok tt, Some (document_of [])),
          (Ok tt, Some (document_of (filtered ["node"] Sample.map_doc))))
  /\ document_of [] <> document_of (filtered ["node"] Sample.map_doc).
Proof. split; [vm_compute; reflexivity|]. vm_compute. discriminate. Qed.

(** C9, the claim as stated, refuted.  The source [capital.osm] has the
    root tag [OSM], which the root check accepts.  The export returns
    normally; the file it writes reads back as a document whose root
    tag is [osm], not the root tag of the source. *)
Lemma C9_counterexample_capital_root :
  Sample.exported "capital.osm" ["node"] (Sample.only_files "out.osm" 2) "/res" "/res/out.osm"
    = Some (Ok tt, Some (document_of [Sample.node "1"; Sample.node "3"; Sample.node "5"]))
  /\ tag <$> parse_document (document_of [Sample.node "1"; Sample.node "3"; Sample.node "5"])
     = Some "osm"
  /\ tag Sample.capital_doc = "OSM"
  /\ "osm" <> tag Sample.capital_doc.
Proof. repeat split; try (vm_compute; reflexivity). vm_compute. discriminate. Qed.

(** C9, amended.  The file of every turn of the export loop that returns
    normally is the declaration, the opening root tag [osm], the
    serialized elements and the closing root tag [osm]; it reads back as
    one well-formed document whose root is an [osm] element holding
    exactly those elements.  The root tag of the source that an exporter
    was built from equals [osm] up to letter case. *)
Theorem C9_output_is_a_document_rooted_at_osm :
  (forall dp f k w w',
     export_pass dp f k w = (Ok tt, w') ->
     exists es,
       content_at (fs w') (Path.join dp f)
         = Some (XML_DECL ++ ROOT_OPEN ++ flat_map tostring es ++ ROOT_CLOSE)
       /\ parse_document (XML_DECL ++ ROOT_OPEN ++ flat_map tostring es ++ ROOT_CLOSE)
          = Some (Elem "osm" [] (LF +:+ "  ") es EmptyString))
  /\ (forall RES osmFile tgs kw fs0 s obj fs1,
        files fs0 !! Path.join RES osmFile = Some (SourceFile s) ->
        DataFramerXML_init RES osmFile tgs kw fs0 = (Ok obj, fs1) ->
        Str.eq_nocase (tag (doc s)) "osm").
Proof.
  split.
  - intros dp f k w w' Hrun. apply export_pass_outcome in Hrun as (_ & es & Hes).
    exists es. split; [done|]. apply parse_document_of.
  - intros RES osmFile tgs kw fs0 s obj fs1 Hsrc Hinit.
    apply (DataFramerXML_init_inv _ _ _ _ _ _ _ _ Hsrc) in Hinit as (_ & _ & Hroot & _).
    apply lower_osm, String.eqb_eq, Hroot.
Qed.

Lemma C9_output_is_a_document_rooted_at_osm_witness :
  (exists es,
     content_at
       (fs (snd (export_pass "/res" "out.osm" 2
                   (World (Sample.exporter Sample.capital_doc "/res/capital.osm"
                             (Cursor (List.tl (events_of true Sample.capital_doc)) false)
                             ["node"] (Some [("out.osm", 2)]))
                          Sample.env))))
       (Path.join "/res" "out.osm")
     = Some (XML_DECL ++ ROOT_OPEN ++ flat_map tostring es ++ ROOT_CLOSE)
     /\ parse_document (XML_DECL ++ ROOT_OPEN ++ flat_map tostring es ++ ROOT_CLOSE)
        = Some (Elem "osm" [] (LF +:+ "  ") es EmptyString))
  /\ Str.eq_nocase (tag Sample.capital_doc) "osm".
Proof.
  destruct C9_output_is_a_document_rooted_at_osm as [Hout Hroot]. split.
  - refine (Hout "/res" "out.osm" 2
              (World (Sample.exporter Sample.capital_doc "/res/capital.osm"
                        (Cursor (List.tl (events_of true Sample.capital_doc)) false)
                        ["node"] (Some [("out.osm", 2)]))
                     Sample.env) _ _).
    vm_compute. reflexivity.
  - apply (Hroot "/res" "capital.osm" ["node"] (Sample.only_files "out.osm" 2) Sample.env
             {| doc := Sample.capital_doc; cut := None |}
             (Sample.exporter Sample.capital_doc "/res/capital.osm"
                (Cursor (List.tl (events_of true Sample.capital_doc)) false)
                ["node"] (Some [("out.osm", 2)]) ) Sample.env).
    + vm_compute. reflexivity.
    + vm_compute. reflexivity.
Defined.

(** C10.  The turn of the export loop for a destination whose last
    dot-separated component is not exactly [osm] raises the
    [ValueError] of the destination check, a format error, and leaves
    the exporter and the file system as they were: nothing is opened.
    [out.OSM] is such a name.  The source check lower-cases first: a
    source name ending in [.OSM] passes it, and with a well-formed
    document behind it the constructor returns an exporter. *)
Theorem C10_extension_checks_differ_in_case :
  (forall dp f k w,
     Str.extension f <> "osm" ->
     export_pass dp f k w = (Raise (ValueError MSG_EXPORT_TYPE), w)
     /\ classify (ValueError MSG_EXPORT_TYPE) = FormatError)
  /\ Str.extension "out.OSM" <> "osm"
  /\ (forall RES stem tgs files_ fs0 d,
        files fs0 !! Path.join RES (stem +:+ ".OSM")
          = Some (SourceFile {| doc := d; cut := None |}) ->
        Str.lower (tag d) = "osm" ->
        exists obj,
          DataFramerXML_init RES (stem +:+ ".OSM") tgs
            {| kw_files := files_; kw_export := PyNone;
               kw_tagValidation := None; kw_root := None |} fs0 = (Ok obj, fs0)).
Proof.
  split; [|split].
  - intros dp f k w Hext. split; [|done]. unfold export_pass.
    destruct (String.eqb_spec (Str.extension f) "osm"); done.
  - vm_compute. discriminate.
  - intros RES stem tgs files_ fs0 d Hsrc Hroot.
    rewrite (DataFramerXML_init_spec _ _ _ _ _ d); try done.
    + rewrite _validate_spec. cbn. eauto.
    + change (stem +:+ ".OSM") with (stem +:+ String "."%char "OSM").
      by rewrite extension_append.
Qed.

Lemma C10_extension_checks_differ_in_case_witness :
  (export_pass "/res" "out.OSM" 1
     (World (Sample.map_exporter ["node"] (Some [("out.OSM", 1)])) Sample.env)
   = (Raise (ValueError MSG_EXPORT_TYPE),
      World (Sample.map_exporter ["node"] (Some [("out.OSM", 1)])) Sample.env)
   /\ classify (ValueError MSG_EXPORT_TYPE) = FormatError)
  /\ exists obj,
       DataFramerXML_init "/res" ("MAP" +:+ ".OSM") ["node"]
         {| kw_files := None; kw_export := PyNone;
            kw_tagValidation := None; kw_root := None |} Sample.env = (Ok obj, Sample.env).
Proof.
  destruct C10_extension_checks_differ_in_case as (Hdest & Hne & Hsrc). split.
  - apply Hdest. exact Hne.
  - apply (Hsrc "/res" "MAP" ["node"] None Sample.env Sample.map_doc);
      vm_compute; reflexivity.
Defined.


(** * Further properties of the program *)

(** ** Names *)

Lemma split_without_sep c s :
  ~ In c (list_ascii_of_string s) -> Str.split c s = [s].
Proof.
  induction s as [|a s IH]; [done|]. cbn [list_ascii_of_string In Str.split]. intros Hno.
  destruct (Ascii.eqb_spec a c) as [->|_]; [tauto|].
  rewrite IH by tauto. done.
Qed.

(** X1.  [name.split('.')[-1]], the extension both checks look at, is
    the part of the name after its last dot, and the whole name when it
    has no dot: a name without a dot passes a check exactly when the
    name itself is the extension asked for. *)
Theorem X1_extension_is_what_follows_the_last_dot (s : string) :
  (~ In "."%char (list_ascii_of_string s) -> Str.extension s = s)
  /\ (forall stem e,
        s = stem +:+ String "."%char e ->
        ~ In "."%char (list_ascii_of_string e) ->
        Str.extension s = e).
Proof.
  split.
  - intros Hno. unfold Str.extension. by rewrite split_without_sep.
  - intros stem e -> Hno. rewrite extension_append.
    unfold Str.extension. by rewrite split_without_sep.
Qed.

Lemma X1_extension_is_what_follows_the_last_dot_witness :
  Str.extension "osm" = "osm" /\ Str.extension "res.v2/map.tar.osm" = "osm".
Proof.
  split.
  - apply (proj1 (X1_extension_is_what_follows_the_last_dot "osm")).
    cbn. intuition discriminate.
  - apply (proj2 (X1_extension_is_what_follows_the_last_dot "res.v2/map.tar.osm")
             "res.v2/map.tar" "osm").
    + reflexivity.
    + cbn. intuition discriminate.
Defined.

(** ** The option cross-check *)

(** X3.  [_validate] raises the [ValueError] of the option cross-check
    exactly when [export] is truthy and [files] was not passed, and then
    leaves the exporter, its cursor included, as it was.  No other
    combination is turned down: not both absent, not a stride map
    alone, not an [export] that is passed but falsy. *)
Theorem X3_cross_check_rejects_only_a_truthy_target_without_files (d : DataFramerXML) :
  (fst (_validate d) = Raise (ValueError MSG_EXPORT)
   <-> truthy (export d) = true /\ export_files d = None)
  /\ (truthy (export d) = true -> export_files d = None ->
      _validate d = (Raise (ValueError MSG_EXPORT), d)).
Proof.
  rewrite _validate_spec.
  destruct (truthy (export d)); cbn [andb].
  - case_bool_decide as Hf.
    + split; [|done]. cbn. tauto.
    + split; [|done]. destruct (tagValidation d); [destruct (broken _); [|destruct (decide _)]|];
        cbn; split; try done; intros [_ ?]; done.
  - split; [|done]. destruct (tagValidation d); [destruct (broken _); [|destruct (decide _)]|];
      cbn; split; try done; intros [? _]; done.
Qed.

Lemma X3_cross_check_rejects_only_a_truthy_target_without_files_witness :
  _validate {| base := base (Sample.map_exporter [] None); tags := ["node"];
               export_files := None; export := PyStr "/res/out";
               tagValidation := true; rootPath := "." |}
  = (Raise (ValueError MSG_EXPORT),
     {| base := base (Sample.map_exporter [] None); tags := ["node"];
        export_files := None; export := PyStr "/res/out";
        tagValidation := true; rootPath := "." |}).
Proof.
  apply (proj2 (X3_cross_check_rejects_only_a_truthy_target_without_files _));
    reflexivity.
Defined.

(** ** Strides *)

Lemma mod_opp_eqb i k : (i mod (- k) =? 0) = (i mod k =? 0).
Proof.
  destruct (Z.eq_dec k 0) as [->|Hk]; [done|].
  apply eq_iff_eq_true. rewrite !Z.eqb_eq, !Z.mod_divide by lia.
  apply Z.divide_opp_l.
Qed.

Lemma opp_eqb_0 k : (- k =? 0) = (k =? 0).
Proof. destruct k; done. Qed.

(** One step of the loop, spelled out. *)
Lemma stream_and_write_cons path k ev rest brk i w :
  stream_and_write path k (ev :: rest) brk i w =
    if selected (tags (self w)) ev then
      let self1 := set_base (set_context (Cursor rest brk) (base (self w))) (self w) in
      let fs1 := if i mod k =? 0
                 then append_file path (tostring (deref (base (self w)) ev)) (fs w)
                 else fs w in
      if k =? 0 then (Raise ZeroDivisionError, World self1 (fs w))
      else match root (base (self w)) with
           | None => (Raise AttributeError, World self1 fs1)
           | Some rt =>
               stream_and_write path k rest brk (i + 1)
                 (World (set_base (set_root (clear rt) (root_current (base (self w)))
                                     (base self1)) self1) fs1)
           end
    else stream_and_write path k rest brk i w.
Proof.
  cbn [stream_and_write]. unfold mbind at 1, M_bind at 1, get at 1.
  destruct (selected (tags (self w)) ev); [|done].
  destruct w as [[[src ctx [rt|] rc] tgs ef ex tv rp] f];
    destruct (k =? 0); [done| |done|]; destruct (i mod k =? 0); done.
Qed.

Lemma stream_and_write_nil path k brk i w :
  stream_and_write path k [] brk i w =
    (if brk then Raise ParseError else Ok tt,
     World (set_base (set_context (Cursor [] false) (base (self w))) (self w)) (fs w)).
Proof. by destruct brk. Qed.

Lemma stream_and_write_opp path k brk : forall evs i w,
  stream_and_write path (- k) evs brk i w = stream_and_write path k evs brk i w.
Proof.
  induction evs as [|ev evs IH]; intros i w; [done|].
  rewrite !stream_and_write_cons, opp_eqb_0, mod_opp_eqb.
  destruct (selected _ ev); [|apply IH].
  cbv zeta. destruct (k =? 0); [done|]. destruct (root _); [apply IH|done].
Qed.

(** X6.  The stride is used only in [i % factor == 0], and Python's
    remainder is zero for the same [i] whichever the sign of the
    divisor: a negative stride is accepted and exports exactly what its
    absolute value exports. *)
Theorem X6_negative_stride_is_its_absolute_value (dp f : string) (k : Z) (w : world) :
  export_pass dp f (- k) w = export_pass dp f k w.
Proof.
  unfold export_pass. destruct (negb _); [done|].
  unfold mbind, M_bind. destruct (on_fs (open_wb _) w) as [[[]|e] w1]; [|done].
  rewrite !on_fs_write. unfold get. cbn [self fs].
  by rewrite stream_and_write_opp.
Qed.

Lemma sample_sublist {A} k (ys : list A) : forall i, sample k i ys `sublist_of` ys.
Proof.
  induction ys as [|y ys IH]; intros i; [done|]. cbn [sample].
  destruct (i mod k =? 0); [by apply sublist_skip | by apply sublist_cons].
Qed.

Lemma sample_before_next_multiple {A} k (ys : list A) : forall i,
  0 < i -> i + Z.of_nat (length ys) <= k -> sample k i ys = [].
Proof.
  induction ys as [|y ys IH]; intros i Hi Hk; [done|]. cbn [sample length] in *.
  rewrite Z.mod_small by lia.
  destruct (Z.eqb_spec i 0); [lia|]. apply IH; lia.
Qed.

Lemma sample_wide {A} k (ys : list A) :
  Z.of_nat (length ys) <= k -> sample k 0 ys = take 1 ys.
Proof.
  destruct ys as [|y ys]; [done|]. cbn [sample length]. intros Hk.
  rewrite Z.mod_0_l by lia. cbn. f_equal. apply sample_before_next_multiple; lia.
Qed.

Lemma stream_and_write_zero path brk : forall evs i w,
  (Exists (fun ev => selected (tags (self w)) ev) evs ->
     exists d', stream_and_write path 0 evs brk i w = (Raise ZeroDivisionError, World d' (fs w)))
  /\ (~ Exists (fun ev => selected (tags (self w)) ev) evs ->
      stream_and_write path 0 evs brk i w =
        (if brk then Raise ParseError else Ok tt,
         World (set_base (set_context (Cursor [] false) (base (self w))) (self w)) (fs w))).
Proof.
  induction evs as [|ev evs IH]; intros i w.
  - rewrite stream_and_write_nil. split; [by intros ?%Exists_nil|done].
  - rewrite stream_and_write_cons.
    destruct (selected (tags (self w)) ev) eqn:Hsel.
    + cbn. split; [eauto|]. intros Hno. exfalso. apply Hno, Exists_cons. left. by rewrite Hsel.
    + destruct (IH i w) as [Hyes Hno]. split.
      * intros [Hh|?]%Exists_cons; [by rewrite Hsel in Hh|]. by apply Hyes.
      * intros Hn. apply Hno. intros ?. apply Hn, Exists_cons. by right.
Qed.

Lemma export_pass_zero dp f w :
  Str.extension f = "osm" ->
  Path.join dp f ∉ dirs (fs w) ->
  Path.dirname (Path.join dp f) ∈ dirs (fs w) ->
  (Exists (fun ev => selected (tags (self w)) ev) (pending (_context (base (self w)))) ->
     exists d',
       export_pass dp f 0 w =
         (Raise ZeroDivisionError,
          World d' {| dirs := dirs (fs w);
                      files := <[Path.join dp f := OutputFile (XML_DECL ++ ROOT_OPEN)]>
                                 (files (fs w)) |}))
  /\ (~ Exists (fun ev => selected (tags (self w)) ev) (pending (_context (base (self w)))) ->
      fst (export_pass dp f 0 w) <> Raise ZeroDivisionError).
Proof.
  intros Hext Hnd Hdir.
  split; intros Hex; unfold export_pass;
    rewrite Hext, String.eqb_refl; cbn [negb];
    unfold mbind at 1, M_bind at 1; rewrite on_fs_open_wb;
    rewrite bool_decide_eq_false_2, bool_decide_eq_true_2 by done;
    unfold mbind at 1, M_bind at 1; rewrite on_fs_write;
    unfold mbind at 1, M_bind at 1; rewrite on_fs_write;
    unfold mbind at 1, M_bind at 1, get at 1; cbn [self fs];
    unfold mbind at 1, M_bind at 1; rewrite !append_file_insert;
    match goal with |- context [stream_and_write ?pa 0 ?e ?b ?i0 ?w0] =>
      destruct (stream_and_write_zero pa b e i0 w0) as [Hyes Hno] end;
    cbn [self fs] in Hyes, Hno.
  - destruct (Hyes Hex) as (d' & ->). by exists d'.
  - rewrite (Hno Hex).
    destruct (broken _); [done|].
    unfold mbind at 1, M_bind at 1. rewrite on_fs_write.
    unfold mbind at 1, M_bind at 1, get at 1.
    unfold mbind at 1, M_bind at 1.
    match goal with |- context [on_fs (iterparse ?p) ?w0] =>
      destruct (on_fs_iterparse p w0) as (r2 & -> & _ & _ & Hraise) end.
    destruct r2 as [c|e]; [done|]. cbn. rewrite (Hraise e eq_refl). done.
Qed.

(** X5.  A stride of zero is not rejected ahead of the export.  The
    turn opens (and so empties) the destination and writes the
    declaration and the opening root tag; then [i % factor] raises
    [ZeroDivisionError] at the first element of the filter that the
    cursor delivers, leaving just those two writes in the file.  When
    the cursor delivers no element of the filter the stride is never
    looked at and no [ZeroDivisionError] is raised. *)
Theorem X5_zero_stride_fails_at_the_first_element (dp f : string) (w : world) :
  Str.extension f = "osm" ->
  Path.join dp f ∉ dirs (fs w) ->
  Path.dirname (Path.join dp f) ∈ dirs (fs w) ->
  (Exists (fun ev => selected (tags (self w)) ev) (pending (_context (base (self w)))) ->
     fst (export_pass dp f 0 w) = Raise ZeroDivisionError
     /\ content_at (fs (snd (export_pass dp f 0 w))) (Path.join dp f)
        = Some (XML_DECL ++ ROOT_OPEN))
  /\ (~ Exists (fun ev => selected (tags (self w)) ev) (pending (_context (base (self w)))) ->
      fst (export_pass dp f 0 w) <> Raise ZeroDivisionError).
Proof.
  intros Hext Hnd Hdir.
  destruct (export_pass_zero dp f w Hext Hnd Hdir) as [Hyes Hno]. split; [|done].
  intros Hex. destruct (Hyes Hex) as (d' & ->). split; [done|]. apply content_at_insert.
Qed.

Lemma X5_zero_stride_fails_at_the_first_element_witness :
  fst (export_pass "/res" "out.osm" 0
         (World (Sample.map_exporter ["node"] (Some [("out.osm", 0)])) Sample.env))
  = Raise ZeroDivisionError
  /\ content_at
       (fs (snd (export_pass "/res" "out.osm" 0
                   (World (Sample.map_exporter ["node"] (Some [("out.osm", 0)])) Sample.env))))
       (Path.join "/res" "out.osm")
     = Some (XML_DECL ++ ROOT_OPEN).
Proof.
  refine (proj1 (X5_zero_stride_fails_at_the_first_element "/res" "out.osm"
            (World (Sample.map_exporter ["node"] (Some [("out.osm", 0)])) Sample.env) _ _ _) _).
  - vm_compute. reflexivity.
  - vm_compute. discriminate.
  - vm_compute. reflexivity.
  - apply (bool_decide_unpack (Exists _ _)). vm_compute. exact I.
Defined.

(** ** What an export leaves alone *)

Lemma files_append_other path d fs0 p :
  p <> path -> files (append_file path d fs0) !! p = files fs0 !! p.
Proof.
  intros Hp. unfold append_file. destruct (files fs0 !! path) as [[]|]; try done.
  cbn. by rewrite lookup_insert_ne.
Qed.

Lemma stream_and_write_frame path k brk : forall evs i w,
  dirs (fs (snd (stream_and_write path k evs brk i w))) = dirs (fs w)
  /\ forall p, p <> path ->
       files (fs (snd (stream_and_write path k evs brk i w))) !! p = files (fs w) !! p.
Proof.
  induction evs as [|ev evs IH]; intros i w.
  - by rewrite stream_and_write_nil.
  - rewrite stream_and_write_cons. destruct (selected _ ev); [|apply IH].
    cbv zeta. destruct (k =? 0); [done|].
    destruct (root _).
    + match goal with |- context [stream_and_write _ _ _ _ _ ?w1] =>
        destruct (IH (i + 1) w1) as [Hd Hf] end.
      rewrite Hd. cbn [fs]. split.
      * destruct (i mod k =? 0); [apply dirs_append|done].
      * intros p Hp. rewrite (Hf p Hp). cbn [fs].
        destruct (i mod k =? 0); [by apply files_append_other|done].
    + cbn [snd fs]. destruct (i mod k =? 0); [|done].
      split; [apply dirs_append|]. intros p Hp. by apply files_append_other.
Qed.

Lemma export_pass_frame dp f k w :
  dirs (fs (snd (export_pass dp f k w))) = dirs (fs w)
  /\ forall p, p <> Path.join dp f ->
       files (fs (snd (export_pass dp f k w))) !! p = files (fs w) !! p.
Proof.
  assert (forall rw, export_pass dp f k w = rw ->
            dirs (fs (snd rw)) = dirs (fs w)
            /\ forall p, p <> Path.join dp f -> files (fs (snd rw)) !! p = files (fs w) !! p)
    as Hgen; [|by apply Hgen].
  intros rw. unfold export_pass. destruct (negb _); [by intros <-|].
  unfold mbind at 1, M_bind at 1. rewrite on_fs_open_wb.
  repeat case_bool_decide; try by intros <-.
  unfold mbind at 1, M_bind at 1. rewrite on_fs_write.
  unfold mbind at 1, M_bind at 1. rewrite on_fs_write.
  unfold mbind at 1, M_bind at 1, get at 1. cbn [self fs].
  unfold mbind at 1, M_bind at 1.
  match goal with |- context [stream_and_write ?pa ?k0 ?e ?b ?i0 ?w0] =>
    pose proof (stream_and_write_frame pa k0 b e i0 w0) as [Hd Hf];
    destruct (stream_and_write pa k0 e b i0 w0) as [[[]|e1] w1] end;
    cbn [snd fs] in Hd, Hf; rewrite !append_file_insert in Hd, Hf; cbn [dirs files] in Hd, Hf.
  2:{ intros <-. cbn [snd]. split; [done|]. intros p Hp. rewrite (Hf p Hp).
      by rewrite lookup_insert_ne. }
  unfold mbind at 1, M_bind at 1. rewrite on_fs_write.
  unfold mbind at 1, M_bind at 1, get at 1.
  unfold mbind at 1, M_bind at 1.
  match goal with |- context [on_fs (iterparse ?p) ?w0] =>
    destruct (on_fs_iterparse p w0) as (r2 & -> & _) end.
  assert (dirs (append_file (Path.join dp f) ROOT_CLOSE (fs w1)) = dirs (fs w)
          /\ forall p, p <> Path.join dp f ->
               files (append_file (Path.join dp f) ROOT_CLOSE (fs w1)) !! p = files (fs w) !! p)
    as [Hd' Hf'].
  { rewrite dirs_append. split; [done|]. intros p Hp.
    rewrite files_append_other, (Hf p Hp) by done. by rewrite lookup_insert_ne. }
  destruct r2; intros <-; cbn; done.
Qed.

Lemma for_each_frame dp : forall items w,
  dirs (fs (snd (for_each items
                   (fun '(export_file, factor) => export_pass dp export_file factor) w)))
  = dirs (fs w)
  /\ forall p, p ∉ dest_path dp <$> items ->
       files (fs (snd (for_each items
                         (fun '(export_file, factor) => export_pass dp export_file factor) w)))
         !! p = files (fs w) !! p.
Proof.
  induction items as [|[f k] items IH]; intros w; [done|].
  cbn [for_each]. unfold mbind, M_bind.
  destruct (export_pass_frame dp f k w) as [Hd Hf].
  destruct (export_pass dp f k w) as [[[]|e] w1]; cbn [snd] in Hd, Hf.
  - destruct (IH w1) as [Hd1 Hf1]. rewrite Hd1. split; [done|].
    intros p Hp. rewrite fmap_cons in Hp. apply not_elem_of_cons in Hp as [Hp1 Hp2].
    rewrite (Hf1 p Hp2). by apply Hf.
  - cbn [snd]. split; [done|]. intros p Hp. rewrite fmap_cons in Hp.
    apply not_elem_of_cons in Hp as [Hp1 _]. by apply Hf.
Qed.

Lemma export_dataset_unfold dp w :
  export_dataset dp w =
    if negb (path_exists (fs w) (rootPath (self w))) then (Raise (IOError MSG_PATH), w)
    else match export_files (self w) with
         | None => (Raise AttributeError, w)
         | Some items =>
             for_each items
               (fun '(export_file, factor) => export_pass dp export_file factor) w
         end.
Proof.
  unfold export_dataset. unfold_m. destruct (negb _); [done|]. by destruct (export_files _).
Qed.

(** X9.  Whatever its outcome, [export_dataset] creates and removes no
    directory and changes no file but the destinations of its stride
    map: the source and every other file are as they were, also when
    the call stops half way with an exception. *)
Theorem X9_export_touches_only_its_destinations (dp : string) (w : world) :
  dirs (fs (snd (export_dataset dp w))) = dirs (fs w)
  /\ forall p,
       (forall items, export_files (self w) = Some items -> p ∉ dest_path dp <$> items) ->
       files (fs (snd (export_dataset dp w))) !! p = files (fs w) !! p.
Proof.
  rewrite export_dataset_unfold.
  destruct (negb _); [done|].
  destruct (export_files (self w)) as [items|]; [|done].
  destruct (for_each_frame dp items w) as [Hd Hf]. split; [done|].
  intros p Hp. apply Hf, Hp. done.
Qed.

Lemma X9_export_touches_only_its_destinations_witness :
  files (fs (snd (export_dataset "/res"
                    (World (Sample.map_exporter ["node"] (Some [("out.osm", 2)])) Sample.env))))
    !! "/res/map.osm"
  = files Sample.env !! "/res/map.osm".
Proof.
  apply (proj2 (X9_export_touches_only_its_destinations "/res"
                  (World (Sample.map_exporter ["node"] (Some [("out.osm", 2)])) Sample.env))).
  intros items [= <-]. vm_compute.
  intros H. apply elem_of_cons in H as [H|H]; [discriminate|]. by apply elem_of_nil in H.
Defined.

(** ** The exporter's settings *)

(** The settings of an exporter: everything but the cursor and the
    object behind [root]. *)
Lemma stream_and_write_settings path k brk : forall evs i w,
  let d' := self (snd (stream_and_write path k evs brk i w)) in
  source (base d') = source (base (self w)) /\ tags d' = tags (self w)
  /\ export_files d' = export_files (self w) /\ rootPath d' = rootPath (self w).
Proof.
  induction evs as [|ev evs IH]; intros i w.
  - by rewrite stream_and_write_nil.
  - rewrite stream_and_write_cons. destruct (selected _ ev); [|apply IH].
    cbv zeta. destruct (k =? 0); [done|]. destruct (root _); [|done].
    match goal with |- context [stream_and_write _ _ _ _ _ ?w1] =>
      destruct (IH (i + 1) w1) as (? & ? & ? & ?) end. done.
Qed.

Lemma export_pass_settings dp f k w :
  let d' := self (snd (export_pass dp f k w)) in
  source (base d') = source (base (self w)) /\ tags d' = tags (self w)
  /\ export_files d' = export_files (self w) /\ rootPath d' = rootPath (self w).
Proof.
  assert (forall rw, export_pass dp f k w = rw ->
            let d' := self (snd rw) in
            source (base d') = source (base (self w)) /\ tags d' = tags (self w)
            /\ export_files d' = export_files (self w) /\ rootPath d' = rootPath (self w))
    as Hgen; [|by apply Hgen].
  intros rw. unfold export_pass. destruct (negb _); [by intros <-|].
  unfold mbind at 1, M_bind at 1. rewrite on_fs_open_wb.
  repeat case_bool_decide; try by intros <-.
  unfold mbind at 1, M_bind at 1. rewrite on_fs_write.
  unfold mbind at 1, M_bind at 1. rewrite on_fs_write.
  unfold mbind at 1, M_bind at 1, get at 1. cbn [self fs].
  unfold mbind at 1, M_bind at 1.
  match goal with |- context [stream_and_write ?pa ?k0 ?e ?b ?i0 ?w0] =>
    pose proof (stream_and_write_settings pa k0 b e i0 w0) as Hs;
    destruct (stream_and_write pa k0 e b i0 w0) as [[[]|e1] w1] end;
    cbn [snd self] in Hs; [|by intros <-].
  unfold mbind at 1, M_bind at 1. rewrite on_fs_write.
  unfold mbind at 1, M_bind at 1, get at 1.
  unfold mbind at 1, M_bind at 1.
  match goal with |- context [on_fs (iterparse ?p) ?w0] =>
    destruct (on_fs_iterparse p w0) as (r2 & -> & _) end.
  destruct r2; intros <-; cbn; [|done]. unfold_m. cbn. done.
Qed.

Lemma for_each_settings dp : forall items w,
  let d' := self (snd (for_each items
                         (fun '(export_file, factor) => export_pass dp export_file factor) w)) in
  source (base d') = source (base (self w)) /\ tags d' = tags (self w)
  /\ export_files d' = export_files (self w) /\ rootPath d' = rootPath (self w).
Proof.
  induction items as [|[f k] items IH]; intros w; [done|].
  cbn [for_each]. unfold mbind, M_bind.
  pose proof (export_pass_settings dp f k w) as Hs. cbv zeta in Hs.
  destruct (export_pass dp f k w) as [[[]|e] w1]; cbn [snd] in Hs; [|done].
  specialize (IH w1). cbv zeta in *. destruct IH as (-> & -> & -> & ->). done.
Qed.

(** ** What the constructor stores *)

Lemma _validate_settings d :
  let d' := snd (_validate d) in
  tags d' = tags d /\ export_files d' = export_files d /\ export d' = export d
  /\ tagValidation d' = tagValidation d /\ rootPath d' = rootPath d
  /\ source (base d') = source (base d).
Proof.
  rewrite _validate_spec.
  destruct (truthy (export d) && bool_decide (export_files d = None)); [done|].
  destruct (tagValidation d) eqn:Htv; [|done].
  destruct (broken _); cbn; by rewrite ?Htv.
Qed.

Lemma DataFramerXML_init_settings RES osmFile tgs kw fs0 obj fs1 :
  DataFramerXML_init RES osmFile tgs kw fs0 = (Ok obj, fs1) ->
  tags obj = tgs /\ export_files obj = kw_files kw /\ export obj = kw_export kw
  /\ tagValidation obj = default false (kw_tagValidation kw)
  /\ rootPath obj = default "." (kw_root kw)
  /\ export_consistent (export obj) (export_files obj).
Proof.
  unfold DataFramerXML_init. unfold mbind, M_bind.
  destruct (ParserXML_init RES osmFile fs0) as [[p|e] fs']; [|done].
  set (d := {| base := p; tags := tgs |}).
  pose proof (_validate_settings d) as Hs. pose proof (_validate_spec d) as Hv.
  destruct (_validate d) as [[[]|e] d']; [|done]. intros [= <- <-].
  cbv zeta in Hs. cbn [snd] in Hs. destruct Hs as (-> & -> & -> & -> & -> & _).
  repeat split; try done. unfold export_consistent. cbn [export export_files d].
  cbn [export export_files d] in Hv.
  destruct (truthy (kw_export kw)); [|by left]. right. intros Hnone.
  rewrite Hnone in Hv. cbn in Hv. done.
Qed.

(** ** The whole export, from the constructor on *)

(** What the constructor returns when no tag validation is asked for. *)
Lemma DataFramerXML_init_plain RES osmFile tgs kw fs0 d obj :
  files fs0 !! Path.join RES osmFile = Some (SourceFile {| doc := d; cut := None |}) ->
  DataFramerXML_init RES osmFile tgs kw fs0 = (Ok obj, fs0) ->
  default false (kw_tagValidation kw) = false ->
  obj = {| base := {| source := Path.join RES osmFile;
                      _context := Cursor (List.tl (events_of true d)) false;
                      root := Some d; root_current := true |};
           tags := tgs; export_files := kw_files kw; export := kw_export kw;
           tagValidation := false; rootPath := default "." (kw_root kw) |}.
Proof.
  intros Hsrc Hinit Htv.
  destruct (DataFramerXML_init_inv _ _ _ _ _ _ _ _ Hsrc Hinit) as (_ & Hext & Hosm & _).
  cbn [doc] in Hosm.
  rewrite (DataFramerXML_init_spec _ _ _ _ _ d Hext Hsrc Hosm), _validate_spec in Hinit.
  cbn [export export_files tagValidation base _context broken pending tags] in Hinit.
  rewrite Htv in Hinit.
  destruct (truthy _ && bool_decide _); [done|]. by injection Hinit as <-.
Qed.

(** The loop over the stride map [items], run on the exporter the
    constructor returned. *)
Lemma export_loop_after_construction RES osmFile tgs kw fs0 d obj dp items :
  files fs0 !! Path.join RES osmFile = Some (SourceFile {| doc := d; cut := None |}) ->
  DataFramerXML_init RES osmFile tgs kw fs0 = (Ok obj, fs0) ->
  default false (kw_tagValidation kw) = false ->
  tag d ∉ tgs ->
  Forall (dest_ok dp (World obj fs0)) items ->
  Forall (fun fk => snd fk <> 0) items ->
  NoDup (dest_path dp <$> items) ->
  exists w',
    for_each items (fun '(export_file, factor) => export_pass dp export_file factor)
      (World obj fs0) = (Ok tt, w')
    /\ (forall f k, (f, k) ∈ items ->
          content_at (fs w') (Path.join dp f)
          = Some (document_of (sample k 0 (filtered tgs d))))
    /\ (items <> [] -> fresh {| doc := d; cut := None |} w')
    /\ (forall p, p ∉ dest_path dp <$> items -> files (fs w') !! p = files fs0 !! p)
    /\ dirs (fs w') = dirs fs0
    /\ source (base (self w')) = source (base obj) /\ tags (self w') = tgs
    /\ export_files (self w') = export_files obj /\ rootPath (self w') = rootPath obj.
Proof.
  intros Hsrc Hinit Htv Hroot Hok Hk Hnd.
  pose proof (DataFramerXML_init_plain _ _ _ _ _ _ _ Hsrc Hinit Htv) as Hobj.
  assert (tags obj = tgs) as Htags by (by rewrite Hobj).
  destruct items as [|[f1 k1] later].
  { exists (World obj fs0). split; [done|]. split; [|done].
    intros f k Hin. by apply elem_of_nil in Hin. }
  apply Forall_cons in Hok as [Hok1 Hok]. apply Forall_cons in Hk as [Hk1 Hk].
  rewrite fmap_cons in Hnd. apply NoDup_cons in Hnd as [Hfirst Hnd]. cbn in Hk1.
  destruct (export_pass_after_construction _ _ _ _ _ _ _ dp f1 k1 Hsrc Hinit Htv Hroot Hk1 Hok1)
    as (w1 & Hrun1 & Hc1 & Hfresh1).
  pose proof (export_pass_settings dp f1 k1 (World obj fs0)) as Hs1.
  pose proof (export_pass_frame dp f1 k1 (World obj fs0)) as [Hd1 Hf1].
  rewrite Hrun1 in Hs1, Hd1, Hf1. cbv zeta in Hs1. cbn [snd self fs] in Hs1, Hd1, Hf1.
  destruct Hs1 as (Hsrc1 & Htags1 & Hef1 & Hrp1).
  destruct (export_passes_fresh dp {| doc := d; cut := None |} later w1 Hfresh1)
    as (w' & Hrun & Hfresh' & Htags' & Hcontent & Hother); [|done|done|].
  { eapply Forall_impl; [exact Hok|]. intros fk (? & ? & ? & ?).
    repeat split; try done; cbn [fs self] in *; congruence. }
  pose proof (for_each_settings dp later w1) as Hs. pose proof (for_each_frame dp later w1) as [Hd _].
  rewrite Hrun in Hs, Hd. cbv zeta in Hs. cbn [snd] in Hs, Hd.
  destruct Hs as (Hsrc' & _ & Hef' & Hrp').
  exists w'. cbn [for_each]. unfold mbind, M_bind. rewrite Hrun1, Hrun.
  split; [done|]. split; [|split; [done|split; [|repeat split; congruence]]].
  2:{ intros p [Hp1 Hp]%not_elem_of_cons. rewrite (Hother p Hp). by apply Hf1. }
  intros f k [[= -> ->]|Hin]%elem_of_cons.
  - unfold content_at in *. by rewrite (Hother (Path.join dp f1) Hfirst).
  - rewrite (Hcontent f k Hin). cbn [doc]. by rewrite Htags1, Htags.
Qed.

Lemma export_dataset_after_construction RES osmFile tgs kw fs0 d obj dp items :
  files fs0 !! Path.join RES osmFile = Some (SourceFile {| doc := d; cut := None |}) ->
  DataFramerXML_init RES osmFile tgs kw fs0 = (Ok obj, fs0) ->
  default false (kw_tagValidation kw) = false ->
  kw_files kw = Some items ->
  tag d ∉ tgs ->
  path_exists fs0 (rootPath obj) = true ->
  Forall (dest_ok dp (World obj fs0)) items ->
  Forall (fun fk => snd fk <> 0) items ->
  NoDup (dest_path dp <$> items) ->
  exists w',
    export_dataset dp (World obj fs0) = (Ok tt, w')
    /\ (forall f k, (f, k) ∈ items ->
          content_at (fs w') (Path.join dp f)
          = Some (document_of (sample k 0 (filtered tgs d))))
    /\ (items <> [] -> fresh {| doc := d; cut := None |} w')
    /\ (forall p, p ∉ dest_path dp <$> items -> files (fs w') !! p = files fs0 !! p)
    /\ dirs (fs w') = dirs fs0
    /\ source (base (self w')) = source (base obj) /\ tags (self w') = tgs
    /\ export_files (self w') = Some items /\ rootPath (self w') = rootPath obj.
Proof.
  intros Hsrc Hinit Htv Hfiles Hroot Hpath Hok Hk Hnd.
  destruct (DataFramerXML_init_settings _ _ _ _ _ _ _ Hinit) as (_ & Hef & _).
  rewrite Hfiles in Hef.
  rewrite export_dataset_unfold. cbn [self fs]. rewrite Hpath, Hef. cbn [negb].
  destruct (export_loop_after_construction _ _ _ _ _ _ _ dp items
              Hsrc Hinit Htv Hroot Hok Hk Hnd)
    as (w' & Hrun & Hc & Hfresh & Hother & Hd & Hs & Ht & Hf & Hr).
  exists w'. rewrite Hef in Hf. done.
Qed.

(** X7.  The whole export, read off an exporter built without tag
    validation over a well-formed document whose root tag is not in the
    filter: [export_dataset] returns normally and every destination of
    the stride map holds, between the declaration and [<osm>] and the
    closing [</osm>], the filtered elements of the document whose index
    is a multiple of the destination's stride.  The destinations are
    writable files with the extension, different from one another and
    from the source, and no stride is zero. *)
Theorem X7_export_writes_every_destination_its_sample
    (RES osmFile : string) (tgs : list string) (kw : kwargs) (fs0 : FS) (d : Element)
    (obj : DataFramerXML) (dp : string) (items : list (string * Z)) :
  files fs0 !! Path.join RES osmFile = Some (SourceFile {| doc := d; cut := None |}) ->
  DataFramerXML_init RES osmFile tgs kw fs0 = (Ok obj, fs0) ->
  default false (kw_tagValidation kw) = false ->
  kw_files kw = Some items ->
  tag d ∉ tgs ->
  path_exists fs0 (rootPath obj) = true ->
  Forall (dest_ok dp (World obj fs0)) items ->
  Forall (fun fk => snd fk <> 0) items ->
  NoDup (dest_path dp <$> items) ->
  exists w',
    export_dataset dp (World obj fs0) = (Ok tt, w')
    /\ forall f k, (f, k) ∈ items ->
         content_at (fs w') (Path.join dp f)
         = Some (document_of (sample k 0 (filtered tgs d))).
Proof.
  intros Hsrc Hinit Htv Hfiles Hroot Hpath Hok Hk Hnd.
  destruct (export_dataset_after_construction _ _ _ _ _ _ _ dp items
              Hsrc Hinit Htv Hfiles Hroot Hpath Hok Hk Hnd) as (w' & Hrun & Hc & _).
  by exists w'.
Qed.

Lemma X7_export_writes_every_destination_its_sample_witness :
  exists w',
    export_dataset "/res"
      (World (Sample.map_exporter ["node"; "way"] (Some [("all.osm", 1); ("third.osm", 3)]))
             Sample.env) = (Ok tt, w')
    /\ forall f k, (f, k) ∈ [("all.osm", 1); ("third.osm", 3)] ->
         content_at (fs w') (Path.join "/res" f)
         = Some (document_of (sample k 0 (filtered ["node"; "way"] Sample.map_doc))).
Proof.
  apply (X7_export_writes_every_destination_its_sample "/res" "map.osm" ["node"; "way"]
           {| kw_files := Some [("all.osm", 1); ("third.osm", 3)]; kw_export := PyNone;
              kw_tagValidation := None; kw_root := None |}
           Sample.env Sample.map_doc).
  - vm_compute. reflexivity.
  - vm_compute. reflexivity.
  - reflexivity.
  - reflexivity.
  - vm_compute. intros H. by repeat (apply elem_of_cons in H as [H|H]; [discriminate|]);
      apply elem_of_nil in H.
  - vm_compute. reflexivity.
  - apply Forall_cons; split; [|apply Forall_cons; split; [|by apply Forall_nil]].
    + repeat split; vm_compute; (reflexivity || discriminate).
    + repeat split; vm_compute; (reflexivity || discriminate).
  - apply Forall_cons; split; [discriminate|apply Forall_cons; split; [discriminate|by apply Forall_nil]].
  - apply (bool_decide_unpack (NoDup _)). vm_compute. exact I.
Defined.

Lemma content_at_Some fs0 p c :
  content_at fs0 p = Some c -> files fs0 !! p = Some (OutputFile c).
Proof.
  unfold content_at. destruct (files fs0 !! p) as [[]|]; [done| |done]. by intros [= ->].
Qed.

(** X13.  Calling [export_dataset] a second time on the same exporter
    reproduces the first call's files: under the conditions of X7 both
    calls return normally and the second leaves the file system exactly
    as the first left it. *)
Theorem X13_export_again_leaves_the_same_files
    (RES osmFile : string) (tgs : list string) (kw : kwargs) (fs0 : FS) (d : Element)
    (obj : DataFramerXML) (dp : string) (items : list (string * Z)) :
  files fs0 !! Path.join RES osmFile = Some (SourceFile {| doc := d; cut := None |}) ->
  DataFramerXML_init RES osmFile tgs kw fs0 = (Ok obj, fs0) ->
  default false (kw_tagValidation kw) = false ->
  kw_files kw = Some items ->
  tag d ∉ tgs ->
  path_exists fs0 (rootPath obj) = true ->
  Forall (dest_ok dp (World obj fs0)) items ->
  Forall (fun fk => snd fk <> 0) items ->
  NoDup (dest_path dp <$> items) ->
  exists w1 w2,
    export_dataset dp (World obj fs0) = (Ok tt, w1)
    /\ export_dataset dp w1 = (Ok tt, w2)
    /\ fs w2 = fs w1.
Proof.
  intros Hsrc Hinit Htv Hfiles Hroot Hpath Hok Hk Hnd.
  destruct (export_dataset_after_construction _ _ _ _ _ _ _ dp items
              Hsrc Hinit Htv Hfiles Hroot Hpath Hok Hk Hnd)
    as (w1 & Hrun1 & Hc1 & Hfresh & Hother1 & Hd1 & Hsrc1 & Htags1 & Hef1 & Hrp1).
  exists w1.
  assert (path_exists (fs w1) (rootPath (self w1)) = true) as Hpath1.
  { unfold path_exists in *. rewrite Hrp1, Hd1.
    apply orb_true_iff in Hpath as [Hdir|Hfile]; [by rewrite Hdir|].
    apply orb_true_iff. right. apply bool_decide_eq_true. apply bool_decide_eq_true in Hfile.
    destruct (decide (rootPath obj ∈ dest_path dp <$> items)) as [Hin|Hout].
    - apply list_elem_of_fmap in Hin as ([f k] & -> & Hin).
      apply Hc1, content_at_Some in Hin. unfold dest_path. cbn [fst]. by rewrite Hin.
    - by rewrite (Hother1 _ Hout). }
  rewrite (export_dataset_unfold dp w1), Hpath1, Hef1. cbn [negb].
  destruct (decide (items = [])) as [->|Hne]; [by exists w1|].
  destruct (export_passes_fresh dp {| doc := d; cut := None |} items w1 (Hfresh Hne))
    as (w2 & Hrun2 & _ & _ & Hc2 & Hother2); [|done|done|].
  { eapply Forall_impl; [exact Hok|]. intros fk (? & ? & ? & ?).
    repeat split; try done; cbn [fs self] in *; congruence. }
  exists w2. split; [done|]. split; [done|].
  pose proof (for_each_frame dp items w1) as [Hd2 _]. rewrite Hrun2 in Hd2. cbn [snd] in Hd2.
  destruct (fs w1) as [ds1 fl1], (fs w2) as [ds2 fl2]. cbn [dirs files] in *. f_equal; [done|].
  apply map_eq. intros p.
  destruct (decide (p ∈ dest_path dp <$> items)) as [Hin|Hout]; [|by apply Hother2].
  apply list_elem_of_fmap in Hin as ([f k] & -> & Hin).
  pose proof (content_at_Some _ _ _ (Hc1 f k Hin)) as H1.
  pose proof (content_at_Some _ _ _ (Hc2 f k Hin)) as H2.
  cbn [files doc] in H1, H2. unfold dest_path. cbn [fst]. rewrite H1, H2. by rewrite Htags1.
Qed.

Lemma X13_export_again_leaves_the_same_files_witness :
  exists w1 w2,
    export_dataset "/res"
      (World (Sample.map_exporter ["node"; "way"] (Some [("all.osm", 1); ("third.osm", 3)]))
             Sample.env) = (Ok tt, w1)
    /\ export_dataset "/res" w1 = (Ok tt, w2)
    /\ fs w2 = fs w1.
Proof.
  apply (X13_export_again_leaves_the_same_files "/res" "map.osm" ["node"; "way"]
           {| kw_files := Some [("all.osm", 1); ("third.osm", 3)]; kw_export := PyNone;
              kw_tagValidation := None; kw_root := None |}
           Sample.env Sample.map_doc
           (Sample.map_exporter ["node"; "way"] (Some [("all.osm", 1); ("third.osm", 3)]))
           "/res" [("all.osm", 1); ("third.osm", 3)]).
  - vm_compute. reflexivity.
  - vm_compute. reflexivity.
  - reflexivity.
  - reflexivity.
  - vm_compute. intros H. by repeat (apply elem_of_cons in H as [H|H]; [discriminate|]);
      apply elem_of_nil in H.
  - vm_compute. reflexivity.
  - apply Forall_cons; split; [|apply Forall_cons; split; [|by apply Forall_nil]].
    + repeat split; vm_compute; (reflexivity || discriminate).
    + repeat split; vm_compute; (reflexivity || discriminate).
  - apply Forall_cons; split; [discriminate|apply Forall_cons; split; [discriminate|by apply Forall_nil]].
  - apply (bool_decide_unpack (NoDup _)). vm_compute. exact I.
Defined.

(** ** The shape of a sample *)

Lemma sample_head {A} k (ys : list A) : k <> 0 -> head (sample k 0 ys) = head ys.
Proof.
  intros Hk. destruct ys as [|y ys]; [done|]. cbn [sample].
  by rewrite Z.mod_0_l by done.
Qed.

(** X8.  What one turn of the export loop picks, for any stride other
    than zero, from a cursor the previous turn reopened: the written
    elements are taken from the filtered elements of the document in
    document order, none is repeated or made up, every one carries a tag
    of the filter, the first filtered element is always among them, and
    a stride no smaller than the number of filtered elements leaves that
    first element alone. *)
Theorem X8_a_turn_writes_a_selection_of_the_filtered_elements
    (dp f : string) (k : Z) (s : Source) (w : world) :
  fresh s w ->
  dest_ok dp w (f, k) ->
  k <> 0 ->
  exists w' written,
    export_pass dp f k w = (Ok tt, w')
    /\ content_at (fs w') (Path.join dp f) = Some (document_of written)
    /\ written `sublist_of` filtered (tags (self w)) (doc s)
    /\ (forall e, e ∈ written -> tag e ∈ tags (self w))
    /\ head written = head (filtered (tags (self w)) (doc s))
    /\ (Z.of_nat (length (filtered (tags (self w)) (doc s))) <= k ->
        written = take 1 (filtered (tags (self w)) (doc s))).
Proof.
  intros Hfresh Hok Hk.
  destruct (export_pass_twice_fresh dp f k s w Hfresh Hok Hk)
    as (w1 & w2 & Hrun & _ & Hc1 & Hc2).
  rewrite Hc2 in Hc1.
  exists w1, (sample k 0 (filtered (tags (self w)) (doc s))).
  split; [done|]. split; [done|]. split; [apply sample_sublist|]. split; [|split].
  - intros e He. eapply elem_of_sublist in He; [|apply sample_sublist].
    unfold filtered in He. by apply list_elem_of_filter in He as [? _].
  - by apply sample_head.
  - apply sample_wide.
Qed.

Lemma X8_a_turn_writes_a_selection_of_the_filtered_elements_witness :
  let w := World (reopened {| doc := Sample.map_doc; cut := None |} Sample.map_doc
                    (Sample.map_exporter ["node"] None)) Sample.env in
  exists w' written,
    export_pass "/res" "few.osm" 7 w = (Ok tt, w')
    /\ content_at (fs w') (Path.join "/res" "few.osm") = Some (document_of written)
    /\ written `sublist_of` filtered (tags (self w)) Sample.map_doc
    /\ (forall e, e ∈ written -> tag e ∈ tags (self w))
    /\ head written = head (filtered (tags (self w)) Sample.map_doc)
    /\ (Z.of_nat (length (filtered (tags (self w)) Sample.map_doc)) <= 7 ->
        written = take 1 (filtered (tags (self w)) Sample.map_doc)).
Proof.
  apply (X8_a_turn_writes_a_selection_of_the_filtered_elements "/res" "few.osm" 7
           {| doc := Sample.map_doc; cut := None |}).
  - repeat split; try (vm_compute; reflexivity). eexists. reflexivity.
  - repeat split; vm_compute; (reflexivity || discriminate).
  - discriminate.
Defined.

(** X4.  An exporter built without the [files] option cannot export:
    the constructor lets it through only with an export target that is
    not truthy, and every call of [export_dataset] on it, whatever the
    file system holds by then, is stopped before anything is written,
    by the path check or by [None.items()]. *)
Theorem X4_exporter_without_stride_map_cannot_export
    (RES osmFile : string) (tgs : list string) (kw : kwargs) (fs0 fs1 : FS)
    (obj : DataFramerXML) (dp : string) (fsx : FS) :
  DataFramerXML_init RES osmFile tgs kw fs0 = (Ok obj, fs1) ->
  kw_files kw = None ->
  truthy (kw_export kw) = false
  /\ export_dataset dp (World obj fsx)
     = (Raise (if path_exists fsx (rootPath obj) then AttributeError else IOError MSG_PATH),
        World obj fsx).
Proof.
  intros Hinit Hnone.
  destruct (DataFramerXML_init_settings _ _ _ _ _ _ _ Hinit) as (_ & Hef & Hex & _ & _ & Hcons).
  rewrite Hef, Hex, Hnone in Hcons. split.
  - destruct Hcons as [?|?]; done.
  - rewrite export_dataset_unfold. cbn [self fs]. rewrite Hef, Hnone.
    by destruct (path_exists fsx (rootPath obj)).
Qed.

Lemma X4_exporter_without_stride_map_cannot_export_witness :
  truthy PyNone = false
  /\ export_dataset "/res" (World (Sample.map_exporter ["node"] None) Sample.env)
     = (Raise (if path_exists Sample.env (rootPath (Sample.map_exporter ["node"] None))
               then AttributeError else IOError MSG_PATH),
        World (Sample.map_exporter ["node"] None) Sample.env).
Proof.
  apply (X4_exporter_without_stride_map_cannot_export "/res" "map.osm" ["node"]
           {| kw_files := None; kw_export := PyNone;
              kw_tagValidation := None; kw_root := None |}
           Sample.env Sample.env).
  - vm_compute. reflexivity.
  - reflexivity.
Defined.

(** ** An export that stops half way *)

Lemma for_each_app {S A} (f : A -> M S unit) (l1 l2 : list A) (s : S) :
  for_each (l1 ++ l2) f s =
    match for_each l1 f s with
    | (Ok _, s1) => for_each l2 f s1
    | (Raise e, s1) => (Raise e, s1)
    end.
Proof.
  revert s. induction l1 as [|a l1 IH]; intros s; [done|].
  cbn [for_each app]. unfold mbind, M_bind.
  destruct (f a s) as [[[]|e] s1]; [apply IH|done].
Qed.

Lemma export_pass_bad_extension dp f k w :
  Str.extension f <> "osm" -> export_pass dp f k w = (Raise (ValueError MSG_EXPORT_TYPE), w).
Proof.
  intros Hext. unfold export_pass. by destruct (String.eqb_spec (Str.extension f) "osm").
Qed.

(** X10.  The export is not all or nothing.  When a name further down
    the stride map lacks the extension, [export_dataset] raises the
    [ValueError] of the extension check only when the loop reaches it:
    the destinations before it have been written in full and stay, and
    neither the file of the bad name nor any later destination is
    created or changed. *)
Theorem X10_a_bad_name_stops_the_export_half_way
    (RES osmFile : string) (tgs : list string) (kw : kwargs) (fs0 : FS) (d : Element)
    (obj : DataFramerXML) (dp : string) (good later : list (string * Z))
    (bad : string) (factor : Z) :
  files fs0 !! Path.join RES osmFile = Some (SourceFile {| doc := d; cut := None |}) ->
  DataFramerXML_init RES osmFile tgs kw fs0 = (Ok obj, fs0) ->
  default false (kw_tagValidation kw) = false ->
  kw_files kw = Some (good ++ (bad, factor) :: later) ->
  Str.extension bad <> "osm" ->
  tag d ∉ tgs ->
  path_exists fs0 (rootPath obj) = true ->
  Forall (dest_ok dp (World obj fs0)) good ->
  Forall (fun fk => snd fk <> 0) good ->
  NoDup (dest_path dp <$> good) ->
  exists w',
    export_dataset dp (World obj fs0) = (Raise (ValueError MSG_EXPORT_TYPE), w')
    /\ (forall f k, (f, k) ∈ good ->
          content_at (fs w') (Path.join dp f)
          = Some (document_of (sample k 0 (filtered tgs d))))
    /\ (forall p, p ∉ dest_path dp <$> good -> files (fs w') !! p = files fs0 !! p).
Proof.
  intros Hsrc Hinit Htv Hfiles Hbad Hroot Hpath Hok Hk Hnd.
  destruct (DataFramerXML_init_settings _ _ _ _ _ _ _ Hinit) as (_ & Hef & _).
  rewrite Hfiles in Hef.
  rewrite export_dataset_unfold. cbn [self fs]. rewrite Hpath, Hef. cbn [negb].
  destruct (export_loop_after_construction _ _ _ _ _ _ _ dp good
              Hsrc Hinit Htv Hroot Hok Hk Hnd) as (w' & Hrun & Hc & _ & Hother & _).
  exists w'. rewrite for_each_app, Hrun. cbn [for_each]. unfold mbind, M_bind.
  by rewrite (export_pass_bad_extension dp bad factor w' Hbad).
Qed.

Lemma X10_a_bad_name_stops_the_export_half_way_witness :
  exists w',
    export_dataset "/res"
      (World (Sample.map_exporter ["node"]
                (Some ([("all.osm", 1)] ++ ("half.xml", 2) :: [("third.osm", 3)])))
             Sample.env) = (Raise (ValueError MSG_EXPORT_TYPE), w')
    /\ (forall f k, (f, k) ∈ [("all.osm", 1)] ->
          content_at (fs w') (Path.join "/res" f)
          = Some (document_of (sample k 0 (filtered ["node"] Sample.map_doc))))
    /\ (forall p, p ∉ dest_path "/res" <$> [("all.osm", 1)] ->
          files (fs w') !! p = files Sample.env !! p).
Proof.
  apply (X10_a_bad_name_stops_the_export_half_way "/res" "map.osm" ["node"]
           {| kw_files := Some ([("all.osm", 1)] ++ ("half.xml", 2) :: [("third.osm", 3)]);
              kw_export := PyNone; kw_tagValidation := None; kw_root := None |}
           Sample.env Sample.map_doc
           (Sample.map_exporter ["node"]
              (Some ([("all.osm", 1)] ++ ("half.xml", 2) :: [("third.osm", 3)])))
           "/res" [("all.osm", 1)] [("third.osm", 3)] "half.xml" 2).
  - vm_compute. reflexivity.
  - vm_compute. reflexivity.
  - reflexivity.
  - reflexivity.
  - vm_compute. discriminate.
  - vm_compute. intros H. by repeat (apply elem_of_cons in H as [H|H]; [discriminate|]);
      apply elem_of_nil in H.
  - vm_compute. reflexivity.
  - apply Forall_cons; split; [|by apply Forall_nil].
    repeat split; vm_compute; (reflexivity || discriminate).
  - apply Forall_cons; split; [discriminate|by apply Forall_nil].
  - apply (bool_decide_unpack (NoDup _)). vm_compute. exact I.
Defined.

(** ** A source that breaks off *)

Lemma DataFramerXML_init_torn RES osmFile tgs kw fs0 d n :
  Str.lower (Str.extension osmFile) = "osm" ->
  files fs0 !! Path.join RES osmFile = Some (SourceFile {| doc := d; cut := Some (S n) |}) ->
  Str.lower (tag d) = "osm" ->
  DataFramerXML_init RES osmFile tgs kw fs0 =
    match _validate
            {| base := {| source := Path.join RES osmFile;
                          _context := Cursor (take n (List.tl (events_of true d))) true;
                          root := Some d; root_current := true |};
               tags := tgs; export_files := kw_files kw; export := kw_export kw;
               tagValidation := default false (kw_tagValidation kw);
               rootPath := default "." (kw_root kw) |} with
    | (Ok _, self) => (Ok self, fs0)
    | (Raise e, _) => (Raise e, fs0)
    end.
Proof.
  intros Hext Hsrc Hroot.
  unfold DataFramerXML_init, ParserXML_init. rewrite Hext, String.eqb_refl. cbn [negb].
  unfold iterparse, _check_root, next_event, next. unfold_m.
  rewrite Hsrc. unfold open_cursor. cbn [cut doc pending].
  rewrite (events_of_cons d true). cbn [take firstn List.tl ev_elem ev_root _context pending broken].
  rewrite Hroot, String.eqb_refl. cbn [negb].
  by destruct (_validate _) as [[[]|e] self].
Qed.

(** The elements a cursor yields before it breaks are the first of the
    filtered elements of the document. *)
Lemma get_element_torn tgs rt rc d n :
  tag d ∉ tgs ->
  _get_element tgs rt rc (take n (List.tl (events_of true d))) `prefix_of` filtered tgs d.
Proof.
  intros Hroot. rewrite <- (filter_selected_events tgs d true), (events_of_cons d true).
  rewrite filter_cons_False by (by intros [? _]%selected_spec). cbn [List.tl].
  set (rest := List.tl (events_of true d)).
  rewrite get_element_plain.
  - exists (ev_elem <$> filter (fun ev => selected tgs ev) (drop n rest)).
    by rewrite <- fmap_app, <- filter_app, take_drop.
  - intros ev Hin [_ Hsel]%selected_spec.
    destruct (ev_root ev) eqn:Hr; [|done].
    apply elem_of_take in Hin as (i & Hin%list_elem_of_lookup_2 & _).
    rewrite (events_of_root d true ev) in Hsel; [done| |done].
    rewrite (events_of_cons d true). by right.
Qed.

Lemma export_pass_torn dp f k w rt :
  Str.extension f = "osm" ->
  Path.join dp f ∉ dirs (fs w) ->
  Path.dirname (Path.join dp f) ∈ dirs (fs w) ->
  k <> 0 ->
  root (base (self w)) = Some rt ->
  broken (_context (base (self w))) = true ->
  exists w',
    export_pass dp f k w = (Raise ParseError, w')
    /\ content_at (fs w') (Path.join dp f)
       = Some (partial_of (sample k 0
                 (_get_element (tags (self w)) rt (root_current (base (self w)))
                    (pending (_context (base (self w))))))).
Proof.
  intros Hext Hnd Hdir Hk Hrt Hbrk.
  unfold export_pass. set (path := Path.join dp f) in *.
  rewrite Hext, String.eqb_refl. cbn [negb].
  unfold mbind at 1, M_bind at 1. rewrite on_fs_open_wb.
  rewrite bool_decide_eq_false_2, bool_decide_eq_true_2 by done.
  unfold mbind at 1, M_bind at 1. rewrite on_fs_write.
  unfold mbind at 1, M_bind at 1. rewrite on_fs_write.
  unfold mbind at 1, M_bind at 1, get at 1. cbn [self fs].
  unfold mbind at 1, M_bind at 1.
  rewrite (stream_and_write_exact _ _ _ _ _ _ rt) by (by try left).
  rewrite Hbrk. cbn [self fs]. rewrite !append_file_insert.
  eexists. split; [done|]. cbn [fs]. rewrite content_at_insert.
  unfold partial_of. by rewrite <- !app_assoc.
Qed.

(** X11.  A source that breaks off after its root has opened, read off
    the program: with [tagValidation] on the constructor raises the
    parser's error; without it the constructor returns an exporter and
    the error comes out of [export_dataset], after the first destination
    has been created.  That file is left with the declaration, [<osm>]
    and the sample of the filtered elements the parser completed before
    the break, without the closing tag. *)
Theorem X11_a_torn_source_fails_in_the_export
    (RES osmFile : string) (tgs : list string) (kw : kwargs) (fs0 : FS) (d : Element) (n : nat)
    (dp f : string) (k : Z) (later : list (string * Z)) :
  Str.lower (Str.extension osmFile) = "osm" ->
  files fs0 !! Path.join RES osmFile = Some (SourceFile {| doc := d; cut := Some (S n) |}) ->
  Str.lower (tag d) = "osm" ->
  tag d ∉ tgs ->
  kw_files kw = Some ((f, k) :: later) ->
  k <> 0 ->
  path_exists fs0 (default "." (kw_root kw)) = true ->
  Str.extension f = "osm" ->
  Path.join dp f ∉ dirs fs0 ->
  Path.dirname (Path.join dp f) ∈ dirs fs0 ->
  if default false (kw_tagValidation kw)
  then DataFramerXML_init RES osmFile tgs kw fs0 = (Raise ParseError, fs0)
       /\ classify ParseError = FormatError
  else exists obj w' es,
         DataFramerXML_init RES osmFile tgs kw fs0 = (Ok obj, fs0)
         /\ export_dataset dp (World obj fs0) = (Raise ParseError, w')
         /\ es `prefix_of` filtered tgs d
         /\ content_at (fs w') (Path.join dp f) = Some (partial_of (sample k 0 es)).
Proof.
  intros Hext Hsrc Hosm Hroot Hfiles Hk Hpath Hx Hnd Hdir.
  rewrite (DataFramerXML_init_torn _ _ _ _ _ d n Hext Hsrc Hosm), _validate_spec.
  cbn [export export_files tagValidation base _context broken pending tags].
  rewrite Hfiles, (bool_decide_eq_false_2 (Some _ = None)), andb_false_r by done.
  destruct (default false (kw_tagValidation kw)); [done|].
  match goal with |- context [(Ok ?o, fs0)] => exists o end.
  rewrite export_dataset_unfold. cbn [self fs export_files rootPath].
  rewrite Hpath. cbn [negb for_each]. unfold mbind, M_bind.
  match goal with |- context [export_pass dp f k ?w0] =>
    destruct (export_pass_torn dp f k w0 d Hx Hnd Hdir Hk eq_refl eq_refl) as (w' & -> & Hc) end.
  cbn [self fs tags base root_current _context pending] in Hc.
  exists w', (_get_element tgs d true (take n (List.tl (events_of true d)))).
  split; [done|]. split; [done|]. split; [by apply get_element_torn|done].
Qed.

Lemma X11_a_torn_source_fails_in_the_export_witness :
  exists obj w' es,
    DataFramerXML_init "/res" "torn.osm" ["node"] (Sample.only_files "out.osm" 2) Sample.env
    = (Ok obj, Sample.env)
    /\ export_dataset "/res" (World obj Sample.env) = (Raise ParseError, w')
    /\ es `prefix_of` filtered ["node"] Sample.map_doc
    /\ content_at (fs w') (Path.join "/res" "out.osm") = Some (partial_of (sample 2 0 es)).
Proof.
  apply (X11_a_torn_source_fails_in_the_export "/res" "torn.osm" ["node"]
           (Sample.only_files "out.osm" 2) Sample.env Sample.map_doc 4 "/res" "out.osm" 2 []).
  - vm_compute. reflexivity.
  - vm_compute. reflexivity.
  - vm_compute. reflexivity.
  - vm_compute. intros H. by repeat (apply elem_of_cons in H as [H|H]; [discriminate|]);
      apply elem_of_nil in H.
  - reflexivity.
  - discriminate.
  - vm_compute. reflexivity.
  - vm_compute. reflexivity.
  - vm_compute. discriminate.
  - vm_compute. reflexivity.
Defined.

(** ** The root among the filtered elements *)

Lemma filtered_root_last tgs d :
  tag d ∈ tgs ->
  filtered tgs d = filter (fun e => tag e ∈ tgs) (flat_map elements (children d)) ++ [d].
Proof.
  intros Hin. unfold filtered. destruct d as [tg at_ tx ch tl]. cbn [elements children].
  rewrite filter_app. f_equal. by rewrite filter_cons_True, filter_nil.
Qed.

(** X12.  When the root's own tag is in the filter, a turn of stride 1
    from a reopened cursor writes, after the filtered elements below the
    root, the root itself: the whole source document ends up nested in
    the output's [<osm>]. *)
Theorem X12_a_filtered_root_is_written_whole (dp f : string) (s : Source) (w : world) :
  fresh s w ->
  dest_ok dp w (f, 1) ->
  tag (doc s) ∈ tags (self w) ->
  exists w',
    export_pass dp f 1 w = (Ok tt, w')
    /\ content_at (fs w') (Path.join dp f)
       = Some (document_of
                 (filter (fun e => tag e ∈ tags (self w)) (flat_map elements (children (doc s)))
                  ++ [doc s])).
Proof.
  intros Hfresh Hok Hroot.
  destruct (export_pass_twice_fresh dp f 1 s w Hfresh Hok) as (w1 & w2 & Hrun & _ & Hc1 & Hc2);
    [done|].
  exists w1. split; [done|].
  by rewrite Hc1, Hc2, sample_one, filtered_root_last.
Qed.

Lemma X12_a_filtered_root_is_written_whole_witness :
  let w := World (reopened {| doc := Sample.map_doc; cut := None |} Sample.map_doc
                    (Sample.map_exporter ["way"; "osm"] None)) Sample.env in
  exists w',
    export_pass "/res" "nested.osm" 1 w = (Ok tt, w')
    /\ content_at (fs w') (Path.join "/res" "nested.osm")
       = Some (document_of
                 (filter (fun e => tag e ∈ tags (self w))
                    (flat_map elements (children Sample.map_doc))
                  ++ [Sample.map_doc])).
Proof.
  apply (X12_a_filtered_root_is_written_whole "/res" "nested.osm"
           {| doc := Sample.map_doc; cut := None |}).
  - repeat split; try (vm_compute; reflexivity). eexists. reflexivity.
  - repeat split; vm_compute; (reflexivity || discriminate).
  - cbn. apply elem_of_cons. right. apply elem_of_cons. by left.
Defined.

(** ** When the constructor returns *)

(** X2.  Over a well-formed source file the constructor returns an
    exporter exactly when four things hold: the source name's extension
    is [osm] in any letter case, the document's root tag is [osm] in any
    letter case, a truthy [export] comes with a stride map, and, if tag
    validation is asked for, every tag of the filter occurs in the
    document. *)
Theorem X2_the_constructor_returns_exactly_when
    (RES osmFile : string) (tgs : list string) (kw : kwargs) (fs0 : FS) (d : Element) :
  files fs0 !! Path.join RES osmFile = Some (SourceFile {| doc := d; cut := None |}) ->
  (exists obj, DataFramerXML_init RES osmFile tgs kw fs0 = (Ok obj, fs0))
  <-> Str.eq_nocase (Str.extension osmFile) "osm"
      /\ Str.eq_nocase (tag d) "osm"
      /\ export_consistent (kw_export kw) (kw_files kw)
      /\ (default false (kw_tagValidation kw) = true ->
          forall t, t ∈ tgs -> t ∈ tag <$> elements d).
Proof.
  intros Hsrc.
  assert (Forall (fun t => t ∈ collect_tags (List.tl (events_of true d)) ∅) tgs
          <-> forall t, t ∈ tgs -> t ∈ tag <$> elements d) as Hall.
  { rewrite Forall_forall. apply forall_proper. intros t.
    by rewrite (collect_tags_document d _ t (events_of_cons d true)). }
  pose proof (export_consistent_spec (kw_export kw) (kw_files kw)) as Hcons.
  rewrite <- !(lower_eq_nocase _ "osm" eq_refl).
  split.
  - intros [obj Hinit].
    destruct (DataFramerXML_init_inv _ _ _ _ _ _ _ _ Hsrc Hinit) as (_ & Hext & Hosm & _).
    cbn [doc] in Hosm. split; [done|]. split; [done|].
    rewrite (DataFramerXML_init_spec _ _ _ _ _ d Hext Hsrc Hosm), _validate_spec in Hinit.
    cbn [export export_files tagValidation base _context broken pending tags] in Hinit.
    destruct (truthy _ && bool_decide _); [done|]. split; [by apply Hcons|].
    intros Htv. rewrite Htv in Hinit. apply Hall.
    by destruct (decide (Forall _ tgs)).
  - intros (Hext & Hosm & Hc%Hcons & Htags).
    rewrite (DataFramerXML_init_spec _ _ _ _ _ d Hext Hsrc Hosm), _validate_spec.
    cbn [export export_files tagValidation base _context broken pending tags].
    rewrite Hc. destruct (default false (kw_tagValidation kw)); [|by eexists].
    rewrite decide_True by (by apply Hall, Htags). by eexists.
Qed.

Lemma X2_the_constructor_returns_exactly_when_witness :
  (exists obj, DataFramerXML_init "/res" "MAP.OSM" ["node"; "nd"]
                 (Sample.validated "out.osm" 1) Sample.env = (Ok obj, Sample.env))
  <-> Str.eq_nocase (Str.extension "MAP.OSM") "osm"
      /\ Str.eq_nocase (tag Sample.map_doc) "osm"
      /\ export_consistent (kw_export (Sample.validated "out.osm" 1))
           (kw_files (Sample.validated "out.osm" 1))
      /\ (default false (kw_tagValidation (Sample.validated "out.osm" 1)) = true ->
          forall t, t ∈ ["node"; "nd"] -> t ∈ tag <$> elements Sample.map_doc).
Proof.
  apply (X2_the_constructor_returns_exactly_when "/res" "MAP.OSM" ["node"; "nd"]
           (Sample.validated "out.osm" 1) Sample.env Sample.map_doc).
  vm_compute. reflexivity.
Defined.
